(** * WeatherNow: the request/response state machine of [src/App.tsx]

    A shallow embedding of the single React component of the repository:
    the weather-code table and its resolver [mapWeather], the three event
    handlers [searchCity], [onSelectLocation] and [useMyLocation], the
    forecast client [fetchWeatherByCoords] they share, and the render
    function: what the component shows for a state.

    Conventions.
    - A JavaScript string is its sequence of UTF-16 code units.
    - A handler does not mutate the component state: it calls the React
      setters, [fetch] and [console].  It is modelled as the ordered list
      of those calls (its effects) together with the way it ended; the
      state after the handler is the state before it with the setter calls
      applied in order.
    - Everything the browser provides (number formatting, URI encoding,
      JSON parsing, the network, the geolocation service) is a variable of
      the section [Component]. *)

From Stdlib Require Import List String Ascii Bool NArith ZArith Lia DecimalString.
Import ListNotations.

Local Open Scope N_scope.

(* ================================================================== *)
(** ** JavaScript strings *)

Module JsString.

(** A string value: a finite sequence of 16-bit code units. *)
Definition jsstring : Type := list N.

(** UTF-8 bytes to Unicode code points (the source file is UTF-8; this
    only serves to write the literals of the source as they appear). *)
Fixpoint utf8_code_points (bs : list N) : list N :=
  match bs with
  | [] => []
  | b0 :: r0 =>
      if b0 <? 0x80 then b0 :: utf8_code_points r0
      else if b0 <? 0xE0 then
        match r0 with
        | b1 :: r1 =>
            ((b0 mod 0x20) * 0x40 + b1 mod 0x40) :: utf8_code_points r1
        | _ => []
        end
      else if b0 <? 0xF0 then
        match r0 with
        | b1 :: b2 :: r2 =>
            ((b0 mod 0x10) * 0x1000 + (b1 mod 0x40) * 0x40 + b2 mod 0x40)
              :: utf8_code_points r2
        | _ => []
        end
      else
        match r0 with
        | b1 :: b2 :: b3 :: r3 =>
            ((b0 mod 0x08) * 0x40000 + (b1 mod 0x40) * 0x1000
             + (b2 mod 0x40) * 0x40 + b3 mod 0x40)
              :: utf8_code_points r3
        | _ => []
        end
  end.

(** One code point as UTF-16: itself, or a surrogate pair. *)
Definition utf16_units (cp : N) : list N :=
  if cp <? 0x10000 then [cp]
  else [0xD800 + (cp - 0x10000) / 0x400; 0xDC00 + (cp - 0x10000) mod 0x400].

(** A string literal of the source. *)
Definition lit (s : string) : jsstring :=
  flat_map utf16_units
    (utf8_code_points (map N_of_ascii (list_ascii_of_string s))).

(** ECMAScript [WhiteSpace] and [LineTerminator] code points, the ones
    [String.prototype.trim] removes. *)
Definition isWhiteSpace (c : N) : bool :=
  (c =? 0x0009) || (c =? 0x000A) || (c =? 0x000B) || (c =? 0x000C)
  || (c =? 0x000D) || (c =? 0x0020) || (c =? 0x00A0) || (c =? 0x1680)
  || ((0x2000 <=? c) && (c <=? 0x200A))
  || (c =? 0x2028) || (c =? 0x2029) || (c =? 0x202F) || (c =? 0x205F)
  || (c =? 0x3000) || (c =? 0xFEFF).

Fixpoint trimStart (s : jsstring) : jsstring :=
  match s with
  | c :: s' => if isWhiteSpace c then trimStart s' else s
  | [] => []
  end.

Definition trimEnd (s : jsstring) : jsstring := rev (trimStart (rev s)).

(** [s.trim()] *)
Definition trim (s : jsstring) : jsstring := trimEnd (trimStart s).

(** Truthiness of a string: only the empty string is falsy. *)
Definition truthy (s : jsstring) : bool :=
  match s with [] => false | _ :: _ => true end.

(** [s || d] on strings. *)
Definition or_else (s d : jsstring) : jsstring :=
  if truthy s then s else d.

(** [String(n)] for a non-negative integer: its decimal numeral. *)
Definition of_N (n : N) : jsstring :=
  lit (NilZero.string_of_uint (N.to_uint n)).

(** [String(z)] for an integer. *)
Definition of_Z (z : Z) : jsstring :=
  match z with
  | Zneg p => lit "-" ++ of_N (Npos p)
  | _ => of_N (Z.to_N z)
  end.

End JsString.
Import JsString.

Arguments lit : simpl never.

(* ================================================================== *)
(** ** Weather codes (lines 3-23) *)

Record WeatherDescriptor : Type := mkDescriptor
  { text : jsstring; icon : jsstring }.

(** The object literal [WEATHER_CODE_MAP], entry by entry. *)
Definition WEATHER_CODE_MAP : list (Z * WeatherDescriptor) :=
  [ (0%Z,  {| text := lit "Clear sky";     icon := lit "☀️" |});
    (1%Z,  {| text := lit "Mainly clear";  icon := lit "🌤️" |});
    (2%Z,  {| text := lit "Partly cloudy"; icon := lit "⛅" |});
    (3%Z,  {| text := lit "Overcast";      icon := lit "☁️" |});
    (45%Z, {| text := lit "Fog";           icon := lit "🌫️" |});
    (48%Z, {| text := lit "Fog (rime)";    icon := lit "🌫️" |});
    (51%Z, {| text := lit "Light drizzle"; icon := lit "🌦️" |});
    (61%Z, {| text := lit "Slight rain";   icon := lit "🌧️" |});
    (63%Z, {| text := lit "Moderate rain"; icon := lit "🌧️" |});
    (65%Z, {| text := lit "Heavy rain";    icon := lit "⛈️" |});
    (71%Z, {| text := lit "Light snow";    icon := lit "❄️" |});
    (80%Z, {| text := lit "Showers";       icon := lit "🌧️" |});
    (95%Z, {| text := lit "Thunderstorm";  icon := lit "⛈️" |}) ].

(** The documented set of known codes. *)
Definition knownCodes : list Z :=
  [0; 1; 2; 3; 45; 48; 51; 61; 63; 65; 71; 80; 95]%Z.

(** [table[code]]: the entry stored under [code], if any. *)
Fixpoint lookup_code (table : list (Z * WeatherDescriptor)) (code : Z)
  : option WeatherDescriptor :=
  match table with
  | [] => None
  | (k, d) :: rest => if Z.eqb k code then Some d else lookup_code rest code
  end.

Definition unknownDescriptor : WeatherDescriptor :=
  {| text := lit "Unknown"; icon := lit "❓" |}.

(** [mapWeather(code?: number)]; [None] is an absent code
    ([undefined] or [null], which [code == null] both match). *)
Definition mapWeather (code : option Z) : WeatherDescriptor :=
  match code with
  | None => unknownDescriptor
  | Some c =>
      match lookup_code WEATHER_CODE_MAP c with
      | Some d => d
      | None => unknownDescriptor
      end
  end.

Example lit_sun : lit "☀️" = [0x2600; 0xFE0F].
Proof. reflexivity. Qed.

Example lit_sun_cloud : lit "🌤️" = [0xD83C; 0xDF24; 0xFE0F].
Proof. reflexivity. Qed.

Example of_N_500 : of_N 500 = lit "500".
Proof. reflexivity. Qed.

Example trim_padded : trim (lit "  Paris ") = lit "Paris".
Proof. reflexivity. Qed.


(* ================================================================== *)
(** ** Values exchanged with the browser *)

(** A thrown value: an [Error] object, read through [err.message]. *)
Record JsError : Type := Error { message : jsstring }.

(** What [fetch] resolves to: the status and the body, as received.
    [res.text()] is the body; [res.json()] is the body parsed. *)
Record Response : Type := mkResponse { status : N; body : jsstring }.

(** [res.ok]: the status is in the range 200-299. *)
Definition ok (res : Response) : bool :=
  (200 <=? status res) && (status res <=? 299).

(** How an awaited browser operation ends. *)
Inductive Settled (A : Type) : Type :=
| Resolved (a : A)
| Rejected (err : JsError)
| NeverSettles.
Arguments Resolved {A} a.
Arguments Rejected {A} err.
Arguments NeverSettles {A}.

(** How a piece of handler code ends: normally, by a thrown value, or
    suspended for ever on an [await] that never settles. *)
Inductive Completion (A : Type) : Type :=
| Returned (a : A)
| Threw (err : JsError)
| Suspended.
Arguments Returned {A} a.
Arguments Threw {A} err.
Arguments Suspended {A}.

(** What evaluating a piece of the render function gives: the element,
    or nothing at all when it throws (the [TypeError] of indexing a
    missing array is caught nowhere, so the component shows nothing). *)
Inductive Rendered (A : Type) : Type :=
| Shown (a : A)
| Crashed.
Arguments Shown {A} a.
Arguments Crashed {A}.

(** The submit event handed to [searchCity]; only [preventDefault] is
    called on it. *)
Definition FormEvent : Type := unit.

Section Component.

(** *** The host environment *)

(** JavaScript numbers (IEEE doubles): coordinates, temperatures, wind.
    The component never computes with them; it formats them. *)
Variable number : Type.
(** [`${x}`] *)
Variable Number_toString : number -> jsstring.
(** [x.toFixed(digits)] *)
Variable Number_toFixed : number -> N -> jsstring.
(** [Math.round(x)], where [x] may be [undefined] (an index past the end). *)
Variable Math_round : option number -> number.
(** [encodeURIComponent(s)], which throws [URIError] on a lone surrogate. *)
Variable encodeURIComponent : jsstring -> JsError + jsstring.

(** *** Payloads *)

(** Modelled from the spec: the candidate objects of the geocoding
    response, typed [any] in the source (spec section 3 and 6). *)
Record LocationCandidate : Type := mkLocation
  { name : jsstring;
    admin1 : option jsstring;
    country : jsstring;
    latitude : number;
    longitude : number;
    population : option number }.

(** Modelled from the spec: the geocoding response, typed [any] in the
    source: [{ results?: [...] }] (spec section 6). *)
Record GeocodingData : Type := mkGeocodingData
  { results : option (list LocationCandidate) }.

(** Modelled from the spec: the [current_weather] value of the forecast
    response (spec section 6), as the render function reads it: any of
    its fields may be missing ([None], read as [undefined]). *)
Record CurrentWeather : Type := mkCurrentWeather
  { temperature : option number;
    windspeed : option number;
    winddirection : option number;
    current_weathercode : option Z;
    current_time : option jsstring }.

(** Modelled from the spec: the [daily] object of the forecast response,
    four parallel arrays (spec section 6), any of which may be missing
    ([None]: the key is absent or [null]). *)
Record Daily : Type := mkDaily
  { time : option (list jsstring);
    weathercode : option (list Z);
    temperature_2m_max : option (list number);
    temperature_2m_min : option (list number) }.

(** Modelled from the spec: the forecast response, typed [any] in the
    source (spec section 6).  An absent field reads as [undefined];
    [current_weather] is [None] when it is absent or falsy. *)
Record ForecastData : Type := mkForecastData
  { current_weather : option CurrentWeather;
    daily : option Daily;
    timezone : option jsstring }.

(** The object stored by [setWeather]: [{ ...data, placeName: ... }],
    the fields of the response and the added key. *)
Record Weather : Type := mkWeather
  { data : ForecastData;
    placeName : option jsstring }.

(** [JSON.parse] / [res.json()], at the type the caller reads the result
    at; [inl] is the [SyntaxError] thrown on a malformed body, [inr None]
    is the body [null], which parses.  Any other value that is not an
    object (a number, a string, a boolean) reads as an object without the
    fields. *)
Variable JSON_parse_geocoding : jsstring -> JsError + option GeocodingData.
Variable JSON_parse_forecast : jsstring -> JsError + option ForecastData.

(** The [TypeError] thrown by reading the property [key] of [null]. *)
Variable TypeError_null_read : jsstring -> JsError.

(** The network: what [fetch(url)] settles to. *)
Variable network : jsstring -> Settled Response.

(** A position fix: [pos.coords.latitude] and [pos.coords.longitude]. *)
Inductive Position : Type :=
| Coords (lat lon : number).

(** [navigator.geolocation]: [None] when the browser has no geolocation;
    otherwise what [getCurrentPosition] calls back with ([Rejected] is the
    error callback, [NeverSettles] no callback at all). *)
Variable navigator_geolocation : option (Settled Position).

(** *** Component state (lines 26-31) *)

Record AppState : Type := mkState
  { query : jsstring;
    locations : list LocationCandidate;
    loadingGeo : bool;
    loadingWeather : bool;
    weather : option Weather;
    error : option jsstring }.

(** The arguments of the [useState] calls. *)
Definition initialState : AppState :=
  {| query := [];
     locations := [];
     loadingGeo := false;
     loadingWeather := false;
     weather := None;
     error := None |}.

(** *** Effects of a handler *)

Inductive LogArg : Type :=
| LogString (s : jsstring)
| LogError (err : JsError).

Inductive Effect : Type :=
| SetQuery (q : jsstring)
| SetLocations (l : list LocationCandidate)
| SetLoadingGeo (b : bool)
| SetLoadingWeather (b : bool)
| SetWeather (w : option Weather)
| SetError (e : option jsstring)
| Fetch (url : jsstring)
| GetCurrentPosition
| PreventDefault
| ConsoleLog (label : jsstring) (arg : LogArg)
| ConsoleError (label : jsstring) (arg : LogArg).

(** A piece of handler code: the effects it performs, in order, and its
    completion. *)
Definition Act (A : Type) : Type := (list Effect * Completion A)%type.

Definition effects {A} (m : Act A) : list Effect := fst m.
Definition completion {A} (m : Act A) : Completion A := snd m.

Definition ret {A} (a : A) : Act A := ([], Returned a).

Definition throw {A} (err : JsError) : Act A := ([], Threw err).

Definition perform (e : Effect) : Act unit := ([e], Returned tt).

Definition bind {A B} (m : Act A) (k : A -> Act B) : Act B :=
  match m with
  | (t, Returned a) => let (t', c) := k a in (t ++ t', c)
  | (t, Threw err) => (t, Threw err)
  | (t, Suspended) => (t, Suspended)
  end.

(** [try { body } catch (err) { handler err }] *)
Definition try_catch {A} (body : Act A) (handler : JsError -> Act A) : Act A :=
  match body with
  | (t, Threw err) => let (t', c) := handler err in (t ++ t', c)
  | _ => body
  end.

(** [try { body } finally { finalizer }]; the finalizer runs unless the
    body is suspended for ever. *)
Definition try_finally {A} (body : Act A) (finalizer : Act unit) : Act A :=
  match body with
  | (t, Suspended) => (t, Suspended)
  | (t, c) =>
      match finalizer with
      | (t', Returned _) => (t ++ t', c)
      | (t', Threw err) => (t ++ t', Threw err)
      | (t', Suspended) => (t ++ t', Suspended)
      end
  end.

(** The result of a host function that returns or throws. *)
Definition host {A} (r : JsError + A) : Act A :=
  match r with
  | inl err => throw err
  | inr a => ret a
  end.

(** [await p] for a browser promise that has been started. *)
Definition await {A} (p : Settled A) : Act A :=
  match p with
  | Resolved a => ret a
  | Rejected err => throw err
  | NeverSettles => ([], Suspended)
  end.

Notation "x <- m ;; k" := (bind m (fun x => k))
  (at level 61, m at next level, right associativity).
Notation "m ;; k" := (bind m (fun _ => k))
  (at level 61, right associativity).

(** [await fetch(url)] *)
Definition fetch (url : jsstring) : Act Response :=
  perform (Fetch url) ;; await (network url).

(** The state a setter call leaves. *)
Definition apply (st : AppState) (e : Effect) : AppState :=
  match e with
  | SetQuery q =>
      {| query := q; locations := locations st; loadingGeo := loadingGeo st;
         loadingWeather := loadingWeather st; weather := weather st;
         error := error st |}
  | SetLocations l =>
      {| query := query st; locations := l; loadingGeo := loadingGeo st;
         loadingWeather := loadingWeather st; weather := weather st;
         error := error st |}
  | SetLoadingGeo b =>
      {| query := query st; locations := locations st; loadingGeo := b;
         loadingWeather := loadingWeather st; weather := weather st;
         error := error st |}
  | SetLoadingWeather b =>
      {| query := query st; locations := locations st;
         loadingGeo := loadingGeo st; loadingWeather := b;
         weather := weather st; error := error st |}
  | SetWeather w =>
      {| query := query st; locations := locations st;
         loadingGeo := loadingGeo st; loadingWeather := loadingWeather st;
         weather := w; error := error st |}
  | SetError e =>
      {| query := query st; locations := locations st;
         loadingGeo := loadingGeo st; loadingWeather := loadingWeather st;
         weather := weather st; error := e |}
  | Fetch _ | GetCurrentPosition | PreventDefault
  | ConsoleLog _ _ | ConsoleError _ _ => st
  end.

(** The component state once the effects have been applied, in order. *)
Definition state_after {A} (st : AppState) (m : Act A) : AppState :=
  fold_left apply (effects m) st.

(** The URLs requested, in order. *)
Fixpoint requests (t : list Effect) : list jsstring :=
  match t with
  | [] => []
  | Fetch url :: t' => url :: requests t'
  | _ :: t' => requests t'
  end.

(** The setter calls among the effects. *)
Definition is_setter (e : Effect) : bool :=
  match e with
  | SetQuery _ | SetLocations _ | SetLoadingGeo _ | SetLoadingWeather _
  | SetWeather _ | SetError _ => true
  | _ => false
  end.

(** *** The handlers *)

(** The URL of the geocoding request (lines 42-44), around the encoded
    query. *)
Definition geocodingUrl (encoded : jsstring) : jsstring :=
  lit "https://geocoding-api.open-meteo.com/v1/search?name="
  ++ encoded ++ lit "&count=5&language=en&format=json".

(** [searchCity] (lines 33-60).  [st] is the state of the render whose
    closure the handler belongs to; it is read for [query] only. *)
Definition searchCity (st : AppState) (e : option FormEvent) : Act unit :=
  match e with Some _ => perform PreventDefault | None => ret tt end ;;
  if negb (truthy (trim (query st))) then ret tt
  else
    perform (SetError None) ;;
    perform (SetLocations []) ;;
    perform (SetWeather None) ;;
    perform (SetLoadingGeo true) ;;
    try_finally
      (try_catch
         (encoded <- host (encodeURIComponent (query st)) ;;
          let url := geocodingUrl encoded in
          res <- fetch url ;;
          (if negb (ok res) then throw (Error (lit "Geocoding failed"))
           else ret tt) ;;
          data <- host (JSON_parse_geocoding (body res)) ;;
          match data with
          | None => throw (TypeError_null_read (lit "results"))
          | Some data =>
              match results data with
              | None | Some [] =>
                  perform
                    (SetError (Some (lit "No matching locations found.")))
              | Some found => perform (SetLocations found)
              end
          end)
         (fun err =>
            perform
              (SetError
                 (Some (or_else (message err)
                                (lit "Failed to search location."))))))
      (perform (SetLoadingGeo false)).

(** The URL of the forecast request (lines 75-76). *)
Definition forecastUrl (lat lon : number) : jsstring :=
  let dailyParams := lit "temperature_2m_max,temperature_2m_min,weathercode" in
  lit "https://api.open-meteo.com/v1/forecast?latitude="
  ++ Number_toString lat ++ lit "&longitude=" ++ Number_toString lon
  ++ lit "&current_weather=true&daily=" ++ dailyParams
  ++ lit "&timezone=auto".

(** [a ?? b] on optional strings. *)
Definition nullish (a b : option jsstring) : option jsstring :=
  match a with
  | Some s => Some s
  | None => b
  end.

(** [fetchWeatherByCoords] (lines 63-105). *)
Definition fetchWeatherByCoords
  (lat lon : number) (placeNameHint : option jsstring) : Act unit :=
  perform (SetError None) ;;
  perform (SetLoadingWeather true) ;;
  perform (SetWeather None) ;;
  perform (SetLocations []) ;;
  perform
    (SetQuery
       (match placeNameHint with
        | Some p => p
        | None => Number_toFixed lat 2 ++ lit ", " ++ Number_toFixed lon 2
        end)) ;;
  try_finally
    (try_catch
       (let url := forecastUrl lat lon in
        perform (ConsoleLog (lit "Fetching weather:") (LogString url)) ;;
        res <- fetch url ;;
        (if negb (ok res)
         then throw (Error (lit "Weather request failed with status "
                            ++ of_N (status res)))
         else ret tt) ;;
        let text := body res in
        data <-
          try_catch
            (host (JSON_parse_forecast text))
            (fun parseErr =>
               perform
                 (ConsoleError
                    (lit "Failed to parse weather JSON. Raw response:")
                    (LogString text)) ;;
               throw (Error (lit "Unexpected response format from API"))) ;;
        match data with
        | None => throw (TypeError_null_read (lit "current_weather"))
        | Some data =>
            (match current_weather data with
             | None =>
                 throw (Error (lit "Weather data not found in API response"))
             | Some _ => ret tt
             end) ;;
            perform
              (SetWeather
                 (Some {| data := data;
                          placeName :=
                            nullish placeNameHint (timezone data) |}))
        end)
       (fun err =>
          perform (ConsoleError (lit "Weather fetch error:") (LogError err)) ;;
          perform
            (SetError
               (Some (or_else (message err)
                              (lit "Failed to fetch weather."))))))
    (perform (SetLoadingWeather false)).

(** The label built on line 111:
    [`${loc.name}${loc.admin1 ? ", " + loc.admin1 : ""}`]. *)
Definition locationLabel (loc : LocationCandidate) : jsstring :=
  name loc
  ++ match admin1 loc with
     | Some a => if truthy a then lit ", " ++ a else lit ""
     | None => lit ""
     end.

(** [onSelectLocation] (lines 107-113). *)
Definition onSelectLocation (loc : LocationCandidate) : Act unit :=
  fetchWeatherByCoords (latitude loc) (longitude loc)
    (Some (locationLabel loc)).

(** [useMyLocation] (lines 115-135), followed by the callback the
    geolocation service invokes, if it invokes one. *)
Definition useMyLocation : Act unit :=
  perform (SetError None) ;;
  match navigator_geolocation with
  | None =>
      perform
        (SetError (Some (lit "Geolocation not available in your browser.")))
  | Some position =>
      perform (SetLoadingWeather true) ;;
      perform GetCurrentPosition ;;
      match position with
      | Resolved (Coords lat lon) =>
          fetchWeatherByCoords lat lon (Some (lit "Your location"))
      | Rejected err =>
          perform (SetLoadingWeather false) ;;
          perform
            (SetError (Some (lit "Could not get location: " ++ message err)))
      | NeverSettles => ret tt
      end
  end.

(** *** The daily forecast, as rendered (lines 210 and 257-280) *)

Record ForecastRow : Type := mkRow
  { row_day : jsstring;
    row_condition : jsstring;
    row_max : number;
    row_min : number }.

(** [arr.map((x, idx) => f x idx)], counting from [idx]. *)
Fixpoint map_indexed {A B} (f : A -> nat -> B) (idx : nat) (arr : list A)
  : list B :=
  match arr with
  | [] => []
  | x :: rest => f x idx :: map_indexed f (S idx) rest
  end.

(** [arr.slice(0, 3)] *)
Definition slice_0_3 {A} (arr : list A) : list A := firstn 3 arr.

(** The callback of [map] (lines 262-277) for one day: it indexes the
    three parallel arrays without a guard, and throws when one of them is
    missing. *)
Definition forecastRow (d : Daily) (day : jsstring) (idx : nat)
  : Rendered ForecastRow :=
  match weathercode d, temperature_2m_max d, temperature_2m_min d with
  | Some codes, Some maxs, Some mins =>
      Shown {| row_day := day;
               row_condition := text (mapWeather (nth_error codes idx));
               row_max := Math_round (nth_error maxs idx);
               row_min := Math_round (nth_error mins idx) |}
  | _, _, _ => Crashed
  end.

(** The elements of an array of rendered pieces, unless one has thrown. *)
Fixpoint all_shown {A} (pieces : list (Rendered A)) : Rendered (list A) :=
  match pieces with
  | [] => Shown []
  | Crashed :: _ => Crashed
  | Shown a :: rest =>
      match all_shown rest with
      | Shown others => Shown (a :: others)
      | Crashed => Crashed
      end
  end.

(** The rows under the heading "3-day Forecast":
    [weather.daily?.time?.slice(0, 3).map((day, idx) => ...)]. *)
Definition forecastRows (w : Weather) : Rendered (list ForecastRow) :=
  match daily (data w) with
  | None => Shown []
  | Some d =>
      match time d with
      | None => Shown []
      | Some days =>
          all_shown (map_indexed (forecastRow d) 0%nat (slice_0_3 days))
      end
  end.

(** The daily forecast of the view: none while the weather card is not
    rendered ([weather && !loadingWeather] is falsy), the rows of the card
    otherwise. *)
Definition renderedForecast (st : AppState)
  : Rendered (option (list ForecastRow)) :=
  match weather st with
  | Some w =>
      if loadingWeather st then Shown None
      else match forecastRows w with
           | Shown rows => Shown (Some rows)
           | Crashed => Crashed
           end
  | None => Shown None
  end.

(** The daily arrays allow the rows to be rendered: there is no day to
    show, or the three parallel arrays are there. *)
Definition rowsRenderable (d : option Daily) : bool :=
  match d with
  | None => true
  | Some d =>
      match time d with
      | None | Some [] => true
      | Some (_ :: _) =>
          match weathercode d, temperature_2m_max d, temperature_2m_min d with
          | Some _, Some _, Some _ => true
          | _, _, _ => false
          end
      end
  end.

(** The entries of the stored snapshot's daily sequence. *)
Definition storedDays (w : Weather) : list jsstring :=
  match daily (data w) with
  | Some d => match time d with Some days => days | None => [] end
  | None => []
  end.

(** *** The whole view (lines 137-290) *)

(** The number literal [0] of line 226. *)
Variable Number_0 : number.

(** [onChange] of the search box (line 151): [setQuery(e.target.value)]. *)
Definition onChange (value : jsstring) : Act unit :=
  perform (SetQuery value).

(** One button of the candidate list (lines 176-197): its React key, the
    three texts it shows and what a click runs. *)
Record CandidateItem : Type := mkItem
  { item_key : jsstring;
    item_title : jsstring;
    item_place : jsstring;
    item_population : jsstring;
    item_onClick : Act unit }.

Definition candidateItem (loc : LocationCandidate) : CandidateItem :=
  {| item_key :=
       Number_toString (latitude loc) ++ lit "-"
       ++ Number_toString (longitude loc);
     item_title :=
       name loc
       ++ match admin1 loc with
          | Some a => if truthy a then lit ", " ++ a else lit ""
          | None => lit ""
          end;
     item_place :=
       country loc ++ lit " — " ++ Number_toFixed (latitude loc) 2
       ++ lit "," ++ lit " " ++ Number_toFixed (longitude loc) 2;
     item_population :=
       lit "Pop: "
       ++ match population loc with
          | Some p => Number_toString p
          | None => lit "—"
          end;
     item_onClick := onSelectLocation loc |}.

(** [x] rendered as text, where [x] may be [undefined] (rendered as
    nothing). *)
Definition numberText (x : option number) : jsstring :=
  match x with
  | Some n => Number_toString n
  | None => lit ""
  end.

(** The weather card (lines 211-282), text by text. *)
Record WeatherCard : Type := mkCard
  { card_icon : jsstring;
    card_place : jsstring;
    card_asOf : jsstring;
    card_temperature : jsstring;
    card_wind : jsstring;
    detail_temperature : jsstring;
    detail_windspeed : jsstring;
    detail_winddirection : jsstring;
    detail_condition : jsstring;
    card_rows : list ForecastRow }.

Definition weatherCard (w : Weather) : Rendered WeatherCard :=
  let current := current_weather (data w) in
  let read {A} (field : CurrentWeather -> option A) : option A :=
    match current with
    | Some cw => field cw
    | None => None
    end in
  let code := read current_weathercode in
  match forecastRows w with
  | Crashed => Crashed
  | Shown rows =>
      Shown
        {| card_icon := icon (mapWeather code);
           card_place :=
             match placeName w with
             | Some p => p
             | None => lit "Location"
             end;
           card_asOf :=
             lit "As of: "
             ++ match read current_time with
                | Some t => t
                | None => lit ""
                end;
           card_temperature :=
             Number_toString
               (Math_round
                  (Some match read temperature with
                        | Some t => t
                        | None => Number_0
                        end))
             ++ lit "°C";
           card_wind :=
             lit "Wind " ++ numberText (read windspeed) ++ lit " km/h";
           detail_temperature := numberText (read temperature) ++ lit "°C";
           detail_windspeed := numberText (read windspeed) ++ lit " km/h";
           detail_winddirection := numberText (read winddirection) ++ lit "°";
           detail_condition := text (mapWeather code);
           card_rows := rows |}
  end.

(** What the component shows for a state: the search box, the
    "Looking up locations..." line, the candidate list, the
    "Loading weather…" line, the error box and the weather card; or
    nothing, when rendering the card throws. *)
Record View : Type := mkView
  { view_query : jsstring;
    view_lookingUp : bool;
    view_candidates : option (list CandidateItem);
    view_loadingWeather : bool;
    view_error : option jsstring;
    view_card : option WeatherCard }.

Definition render (st : AppState) : Rendered View :=
  let view (card : option WeatherCard) : View :=
    {| view_query := query st;
       view_lookingUp := loadingGeo st;
       view_candidates :=
         match locations st with
         | [] => None
         | _ :: _ => Some (map candidateItem (locations st))
         end;
       view_loadingWeather := loadingWeather st;
       view_error :=
         match error st with
         | Some m => if truthy m then Some m else None
         | None => None
         end;
       view_card := card |} in
  match weather st with
  | Some w =>
      if loadingWeather st then Shown (view None)
      else match weatherCard w with
           | Shown card => Shown (view (Some card))
           | Crashed => Crashed
           end
  | None => Shown (view None)
  end.

(* ================================================================== *)
(** ** Properties *)

(** *** Strings *)

Lemma trimStart_blank (s : jsstring) :
  forallb isWhiteSpace s = true -> trimStart s = [].
Proof.
  induction s as [|c s IH]; intro H; [reflexivity|].
  apply andb_true_iff in H as [Hc Hs].
  cbn [trimStart]. rewrite Hc. exact (IH Hs).
Qed.

Lemma trim_blank (s : jsstring) :
  forallb isWhiteSpace s = true -> trim s = [].
Proof.
  intro H. unfold trim. rewrite (trimStart_blank s H). reflexivity.
Qed.

Lemma or_else_nonempty (s d : jsstring) : s <> [] -> or_else s d = s.
Proof. destruct s; [congruence | reflexivity]. Qed.

Lemma app_nonempty (s t : jsstring) : s <> [] -> s ++ t <> [].
Proof. destruct s; [congruence | discriminate]. Qed.

(** A literal of the source, or what is appended to one, is not empty. *)
Ltac lit_nonempty :=
  match goal with
  | |- _ ++ _ <> [] => apply app_nonempty; lit_nonempty
  | |- lit _ <> [] => let H := fresh in intro H; vm_compute in H; discriminate H
  end.

(** Run a handler as far as the hypotheses determine it, leaving URLs and
    messages folded. *)
Ltac step := cbn - [forecastUrl geocodingUrl of_N or_else].

Ltac run_forecast := unfold fetchWeatherByCoords, fetch; step.

(** No element of a concrete effect list matches the one in [H]. *)
Ltac refute_membership H :=
  repeat (let Heq := fresh "Heq" in
          destruct H as [Heq | H]; [discriminate Heq|]);
  destruct H.

(** [res.ok] is false exactly for a status outside 200-299. *)
Lemma ok_false_iff (res : Response) :
  ok res = false <-> (status res < 200 \/ 299 < status res).
Proof.
  unfold ok. rewrite andb_false_iff, !N.leb_gt. reflexivity.
Qed.

(** *** Weather codes *)

Lemma knownCodes_are_keys : map fst WEATHER_CODE_MAP = knownCodes.
Proof. reflexivity. Qed.

Lemma lookup_code_absent (table : list (Z * WeatherDescriptor)) (c : Z) :
  ~ In c (map fst table) -> lookup_code table c = None.
Proof.
  induction table as [|[k d] rest IH]; intro H; [reflexivity|].
  cbn [lookup_code]. destruct (Z.eqb_spec k c) as [->|Hne].
  - exfalso. apply H. left. reflexivity.
  - apply IH. intro Hin. apply H. right. exact Hin.
Qed.

(** C2. [mapWeather] returns the descriptor of the table for each of the
    thirteen known codes, and the unknown descriptor ("Unknown", "❓") for
    every other integer and for an absent code. *)
Theorem mapWeather_known_and_unknown :
  mapWeather (Some 0%Z)
    = {| text := lit "Clear sky"; icon := lit "☀️" |}
  /\ mapWeather (Some 1%Z)
    = {| text := lit "Mainly clear"; icon := lit "🌤️" |}
  /\ mapWeather (Some 2%Z)
    = {| text := lit "Partly cloudy"; icon := lit "⛅" |}
  /\ mapWeather (Some 3%Z)
    = {| text := lit "Overcast"; icon := lit "☁️" |}
  /\ mapWeather (Some 45%Z)
    = {| text := lit "Fog"; icon := lit "🌫️" |}
  /\ mapWeather (Some 48%Z)
    = {| text := lit "Fog (rime)"; icon := lit "🌫️" |}
  /\ mapWeather (Some 51%Z)
    = {| text := lit "Light drizzle"; icon := lit "🌦️" |}
  /\ mapWeather (Some 61%Z)
    = {| text := lit "Slight rain"; icon := lit "🌧️" |}
  /\ mapWeather (Some 63%Z)
    = {| text := lit "Moderate rain"; icon := lit "🌧️" |}
  /\ mapWeather (Some 65%Z)
    = {| text := lit "Heavy rain"; icon := lit "⛈️" |}
  /\ mapWeather (Some 71%Z)
    = {| text := lit "Light snow"; icon := lit "❄️" |}
  /\ mapWeather (Some 80%Z)
    = {| text := lit "Showers"; icon := lit "🌧️" |}
  /\ mapWeather (Some 95%Z)
    = {| text := lit "Thunderstorm"; icon := lit "⛈️" |}
  /\ (forall c : Z,
        ~ In c knownCodes ->
        mapWeather (Some c) = {| text := lit "Unknown"; icon := lit "❓" |})
  /\ mapWeather None = {| text := lit "Unknown"; icon := lit "❓" |}.
Proof.
  repeat (split; [reflexivity|]).
  split; [|reflexivity].
  intros c Hc. unfold mapWeather.
  rewrite lookup_code_absent; [reflexivity|].
  rewrite knownCodes_are_keys. exact Hc.
Qed.

(** C3. When the query is empty or made of whitespace only, [searchCity]
    requests nothing from the network, calls no setter, and the component
    state (query, candidates, both loading flags, weather, error) is the
    one it started from. *)
Theorem searchCity_blank_query_is_noop (st : AppState) (e : option FormEvent) :
  forallb isWhiteSpace (query st) = true ->
  requests (effects (searchCity st e)) = []
  /\ filter is_setter (effects (searchCity st e)) = []
  /\ state_after st (searchCity st e) = st
  /\ completion (searchCity st e) = Returned tt.
Proof.
  intro Hblank. unfold searchCity.
  rewrite (trim_blank _ Hblank).
  destruct e as [ev|]; cbn; repeat split; reflexivity.
Qed.

(** *** Geocoding search *)

(** C4, as the code has it. When the geocoding request succeeds with a
    body that is not [null] and has no results (the key absent, or an
    empty array), the state after [searchCity] has no candidates and the
    error message "No matching locations found."; no setter call stores a
    candidate. *)
Theorem searchCity_no_results
  (st : AppState) (e : option FormEvent)
  (encoded : jsstring) (res : Response) (found : GeocodingData) :
  truthy (trim (query st)) = true ->
  encodeURIComponent (query st) = inr encoded ->
  network (geocodingUrl encoded) = Resolved res ->
  ok res = true ->
  JSON_parse_geocoding (body res) = inr (Some found) ->
  results found = None \/ results found = Some [] ->
  let st' := state_after st (searchCity st e) in
  locations st' = []
  /\ error st' = Some (lit "No matching locations found.")
  /\ (forall l, In (SetLocations l) (effects (searchCity st e)) -> l = [])
  /\ completion (searchCity st e) = Returned tt.
Proof.
  intros Hq Henc Hnet Hok Hparse Hres st'. subst st'.
  unfold searchCity, fetch.
  rewrite Hq, Henc. step.
  rewrite Hnet. step.
  rewrite Hok, Hparse. step.
  destruct Hres as [-> | ->]; destruct e as [ev|]; step;
    (repeat split; try reflexivity);
    intros l Hin;
    repeat (destruct Hin as [Heq | Hin];
            [inversion Heq; reflexivity || discriminate|]);
    contradiction.
Qed.

(** *** Forecast fetch *)

(** C5, as the code has it. When the forecast response is received with
    a 2xx status and parses to a value other than [null] that has no
    [current_weather] section, the error message is
    "Weather data not found in API response" and no snapshot is stored. *)
Theorem fetchWeatherByCoords_missing_current_weather
  (st : AppState) (lat lon : number) (hint : option jsstring)
  (res : Response) (parsed : ForecastData) :
  network (forecastUrl lat lon) = Resolved res ->
  ok res = true ->
  JSON_parse_forecast (body res) = inr (Some parsed) ->
  current_weather parsed = None ->
  let run := fetchWeatherByCoords lat lon hint in
  error (state_after st run)
    = Some (lit "Weather data not found in API response")
  /\ weather (state_after st run) = None
  /\ (forall w, ~ In (SetWeather (Some w)) (effects run)).
Proof.
  intros Hnet Hok Hparse Hcw run. subst run. run_forecast.
  rewrite Hnet. step.
  rewrite Hok, Hparse. step.
  rewrite Hcw. step.
  rewrite or_else_nonempty by lit_nonempty.
  repeat split; try reflexivity.
  intros w Hin. refute_membership Hin.
Qed.

(** C6. When the forecast endpoint answers with a status outside 200-299,
    the error message is "Weather request failed with status " followed by
    the status in decimal (500 gives "... status 500"), and no snapshot is
    stored. *)
Theorem fetchWeatherByCoords_bad_status
  (st : AppState) (lat lon : number) (hint : option jsstring)
  (res : Response) :
  network (forecastUrl lat lon) = Resolved res ->
  status res < 200 \/ 299 < status res ->
  let run := fetchWeatherByCoords lat lon hint in
  error (state_after st run)
    = Some (lit "Weather request failed with status " ++ of_N (status res))
  /\ weather (state_after st run) = None
  /\ (forall w, ~ In (SetWeather (Some w)) (effects run)).
Proof.
  intros Hnet Hstatus run. subst run. run_forecast.
  rewrite Hnet. step.
  rewrite (proj2 (ok_false_iff res) Hstatus). step.
  rewrite or_else_nonempty by lit_nonempty.
  repeat split; try reflexivity.
  intros w Hin. refute_membership Hin.
Qed.

(** The state a successful forecast fetch leaves. *)
Lemma fetchWeatherByCoords_success
  (st : AppState) (lat lon : number) (hint : option jsstring)
  (res : Response) (parsed : ForecastData) (cw : CurrentWeather) :
  network (forecastUrl lat lon) = Resolved res ->
  ok res = true ->
  JSON_parse_forecast (body res) = inr (Some parsed) ->
  current_weather parsed = Some cw ->
  state_after st (fetchWeatherByCoords lat lon hint)
  = {| query :=
         match hint with
         | Some p => p
         | None => Number_toFixed lat 2 ++ lit ", " ++ Number_toFixed lon 2
         end;
       locations := [];
       loadingGeo := loadingGeo st;
       loadingWeather := false;
       weather :=
         Some {| data := parsed;
                 placeName := nullish hint (timezone parsed) |};
       error := None |}.
Proof.
  intros Hnet Hok Hparse Hcw. run_forecast.
  rewrite Hnet. step.
  rewrite Hok, Hparse. step.
  rewrite Hcw. step.
  reflexivity.
Qed.

(** The forecast client always asks for exactly one URL, the one of its
    coordinates, whatever the network answers. *)
Lemma fetchWeatherByCoords_requests
  (lat lon : number) (hint : option jsstring) :
  requests (effects (fetchWeatherByCoords lat lon hint))
  = [forecastUrl lat lon].
Proof.
  run_forecast.
  destruct (network (forecastUrl lat lon)) as [res|err|]; step;
    [|reflexivity|reflexivity].
  destruct (ok res); step; [|reflexivity].
  destruct (JSON_parse_forecast (body res)) as [perr|[parsed|]]; step;
    [reflexivity| |reflexivity].
  destruct (current_weather parsed); reflexivity.
Qed.

(** The query text is set before the request is made. *)
Lemma fetchWeatherByCoords_query
  (st : AppState) (lat lon : number) (hint : option jsstring) :
  query (state_after st (fetchWeatherByCoords lat lon hint))
  = match hint with
    | Some p => p
    | None => Number_toFixed lat 2 ++ lit ", " ++ Number_toFixed lon 2
    end.
Proof.
  run_forecast.
  destruct (network (forecastUrl lat lon)) as [res|err|]; step;
    [|reflexivity|reflexivity].
  destruct (ok res); step; [|reflexivity].
  destruct (JSON_parse_forecast (body res)) as [perr|[parsed|]]; step;
    [reflexivity| |reflexivity].
  destruct (current_weather parsed); reflexivity.
Qed.

(** C7. After a successful forecast fetch the stored snapshot's
    [placeName] is the hint when one was passed, and otherwise the
    [timezone] of the response. *)
Theorem fetchWeatherByCoords_placeName
  (st : AppState) (lat lon : number) (hint : option jsstring)
  (res : Response) (parsed : ForecastData) (cw : CurrentWeather) :
  network (forecastUrl lat lon) = Resolved res ->
  ok res = true ->
  JSON_parse_forecast (body res) = inr (Some parsed) ->
  current_weather parsed = Some cw ->
  exists w,
    weather (state_after st (fetchWeatherByCoords lat lon hint)) = Some w
    /\ data w = parsed
    /\ placeName w
       = match hint with
         | Some p => Some p
         | None => timezone parsed
         end.
Proof.
  intros Hnet Hok Hparse Hcw.
  rewrite (fetchWeatherByCoords_success st lat lon hint res parsed cw)
    by assumption.
  eexists. split; [reflexivity|]. split; [reflexivity|].
  destruct hint; reflexivity.
Qed.

(** *** Daily forecast *)

Lemma map_indexed_length {A B} (f : A -> nat -> B) (idx : nat) (arr : list A) :
  List.length (map_indexed f idx arr) = List.length arr.
Proof.
  revert idx. induction arr as [|x rest IH]; intro idx; [reflexivity|].
  cbn. rewrite IH. reflexivity.
Qed.

Lemma map_map_indexed {A B C} (g : B -> C) (f : A -> nat -> B) (idx : nat)
  (arr : list A) :
  map g (map_indexed f idx arr) = map_indexed (fun x i => g (f x i)) idx arr.
Proof.
  revert idx. induction arr as [|x rest IH]; intro idx; [reflexivity|].
  cbn. rewrite IH. reflexivity.
Qed.

Lemma map_indexed_fst {A} (idx : nat) (arr : list A) :
  map_indexed (fun x _ => x) idx arr = arr.
Proof.
  revert idx. induction arr as [|x rest IH]; intro idx; [reflexivity|].
  cbn. rewrite IH. reflexivity.
Qed.

(** The callback keeps the day it is given. *)
Lemma forecastRow_day (d : Daily) (day : jsstring) (idx : nat)
  (row : ForecastRow) :
  forecastRow d day idx = Shown row -> row_day row = day.
Proof.
  unfold forecastRow.
  destruct (weathercode d), (temperature_2m_max d), (temperature_2m_min d);
    try discriminate.
  intro H. injection H as <-. reflexivity.
Qed.

Lemma all_shown_cons {A} (piece : Rendered A) (rest : list (Rendered A))
  (shown : list A) :
  all_shown (piece :: rest) = Shown shown ->
  exists a others,
    piece = Shown a /\ all_shown rest = Shown others /\ shown = a :: others.
Proof.
  cbn [all_shown]. destruct piece as [a|]; [|discriminate].
  destruct (all_shown rest) as [others|]; [|discriminate].
  intro H. injection H as <-. exists a, others. repeat split.
Qed.

Lemma all_shown_rows_days (d : Daily) (days : list jsstring) (idx : nat)
  (rows : list ForecastRow) :
  all_shown (map_indexed (forecastRow d) idx days) = Shown rows ->
  map row_day rows = days.
Proof.
  revert idx rows.
  induction days as [|day days IH]; intros idx rows H.
  - injection H as <-. reflexivity.
  - cbn [map_indexed] in H.
    apply all_shown_cons in H as (row & others & Hrow & Hrest & ->).
    cbn [map]. rewrite (forecastRow_day _ _ _ _ Hrow), (IH _ _ Hrest).
    reflexivity.
Qed.

(** The rendered rows are the first three stored days, in stored order. *)
Lemma forecastRows_days (w : Weather) (rows : list ForecastRow) :
  forecastRows w = Shown rows ->
  map row_day rows = firstn 3 (storedDays w).
Proof.
  unfold forecastRows, storedDays, slice_0_3.
  destruct (daily (data w)) as [d|];
    [|intro H; injection H as <-; reflexivity].
  destruct (time d) as [days|];
    [|intro H; injection H as <-; reflexivity].
  apply all_shown_rows_days.
Qed.

Lemma forecastRows_length (w : Weather) (rows : list ForecastRow) :
  forecastRows w = Shown rows ->
  List.length rows = Nat.min 3 (List.length (storedDays w)).
Proof.
  intro H. rewrite <- (length_map row_day), (forecastRows_days w rows H).
  apply length_firstn.
Qed.

(** With the three parallel arrays there, every row is rendered. *)
Lemma all_shown_complete (d : Daily) (codes : list Z) (maxs mins : list number)
  (days : list jsstring) (idx : nat) :
  weathercode d = Some codes ->
  temperature_2m_max d = Some maxs ->
  temperature_2m_min d = Some mins ->
  exists rows, all_shown (map_indexed (forecastRow d) idx days) = Shown rows.
Proof.
  intros Hcodes Hmaxs Hmins. revert idx.
  induction days as [|day days IH]; intro idx; [eexists; reflexivity|].
  destruct (IH (S idx)) as [others Hothers].
  cbn [map_indexed all_shown]. unfold forecastRow at 1.
  rewrite Hcodes, Hmaxs, Hmins, Hothers. eexists. reflexivity.
Qed.

(** C1, as the code has it. After a successful forecast fetch whose
    response carries more than three [daily.time] entries together with
    the three parallel arrays, the snapshot stored in state keeps the
    whole [daily.time] array as received; the daily forecast rendered from
    that state has exactly three rows, which are the first three entries
    in the order of the response. *)
Theorem fetchWeatherByCoords_daily_truncated_at_render
  (st : AppState) (lat lon : number) (hint : option jsstring)
  (res : Response) (parsed : ForecastData) (cw : CurrentWeather)
  (d : Daily) (days : list jsstring)
  (codes : list Z) (maxs mins : list number) :
  network (forecastUrl lat lon) = Resolved res ->
  ok res = true ->
  JSON_parse_forecast (body res) = inr (Some parsed) ->
  current_weather parsed = Some cw ->
  daily parsed = Some d ->
  time d = Some days ->
  (3 < List.length days)%nat ->
  weathercode d = Some codes ->
  temperature_2m_max d = Some maxs ->
  temperature_2m_min d = Some mins ->
  let st' := state_after st (fetchWeatherByCoords lat lon hint) in
  exists w rows,
    weather st' = Some w
    /\ storedDays w = days
    /\ renderedForecast st' = Shown (Some rows)
    /\ List.length rows = 3%nat
    /\ map row_day rows = firstn 3 days.
Proof.
  intros Hnet Hok Hparse Hcw Hdaily Htime Hlen Hcodes Hmaxs Hmins st'.
  subst st'.
  rewrite (fetchWeatherByCoords_success st lat lon hint res parsed cw)
    by assumption.
  set (w := {| data := parsed; placeName := nullish hint (timezone parsed) |}).
  assert (Hstored : storedDays w = days).
  { unfold storedDays, w. cbn [data]. rewrite Hdaily, Htime. reflexivity. }
  assert (Hrows : exists rows, forecastRows w = Shown rows).
  { unfold forecastRows, w. cbn [data]. rewrite Hdaily, Htime.
    exact (all_shown_complete d codes maxs mins _ _ Hcodes Hmaxs Hmins). }
  destruct Hrows as [rows Hrows].
  exists w, rows. cbn [weather loadingWeather renderedForecast].
  rewrite Hrows. repeat split.
  - exact Hstored.
  - rewrite (forecastRows_length w rows Hrows), Hstored. lia.
  - rewrite (forecastRows_days w rows Hrows), Hstored. reflexivity.
Qed.

(** *** Selecting a candidate *)

Lemma lit_empty : lit "" = [].
Proof. reflexivity. Qed.

(** C8, as the code has it. Selecting a candidate runs the forecast client
    on the candidate's own coordinates with the composed label, which is
    "name, admin1" when [admin1] is present and not empty and "name"
    otherwise; the client requests the forecast URL of those coordinates,
    the query text becomes the label, and when the fetch succeeds the
    candidate list is empty and the stored snapshot's [placeName] is the
    label. *)
Theorem onSelectLocation_fetches_candidate
  (st : AppState) (loc : LocationCandidate) :
  let label := locationLabel loc in
  let run := onSelectLocation loc in
  (forall a, admin1 loc = Some a -> a <> [] ->
             label = name loc ++ lit ", " ++ a)
  /\ (admin1 loc = None \/ admin1 loc = Some [] -> label = name loc)
  /\ run = fetchWeatherByCoords (latitude loc) (longitude loc) (Some label)
  /\ requests (effects run) = [forecastUrl (latitude loc) (longitude loc)]
  /\ query (state_after st run) = label
  /\ (forall res parsed cw,
        network (forecastUrl (latitude loc) (longitude loc)) = Resolved res ->
        ok res = true ->
        JSON_parse_forecast (body res) = inr (Some parsed) ->
        current_weather parsed = Some cw ->
        locations (state_after st run) = []
        /\ exists w, weather (state_after st run) = Some w
                     /\ placeName w = Some label).
Proof.
  intros label run. subst label run. unfold onSelectLocation.
  split; [|split; [|split; [|split; [|split]]]].
  - intros a Ha Hne. unfold locationLabel. rewrite Ha.
    destruct a; [congruence | reflexivity].
  - intros [Ha | Ha]; unfold locationLabel; rewrite Ha; cbn [truthy];
      rewrite lit_empty; apply app_nil_r.
  - reflexivity.
  - apply fetchWeatherByCoords_requests.
  - apply fetchWeatherByCoords_query.
  - intros res parsed cw Hnet Hok Hparse Hcw.
    rewrite (fetchWeatherByCoords_success st _ _ _ res parsed cw)
      by assumption.
    split; [reflexivity|]. eexists. split; reflexivity.
Qed.

(** *** Device location *)

(** C9. When the geolocation service reports a failure with message [m],
    [useMyLocation] leaves the weather loading flag false and the error
    "Could not get location: " followed by [m]; when the browser has no
    geolocation, the error is "Geolocation not available in your browser."
    and the loading flag is never set: no setter touches it and nothing
    is requested. *)
Theorem useMyLocation_failures (st : AppState) :
  (forall err,
      navigator_geolocation = Some (Rejected err) ->
      loadingWeather (state_after st useMyLocation) = false
      /\ error (state_after st useMyLocation)
         = Some (lit "Could not get location: " ++ message err))
  /\ (navigator_geolocation = None ->
      error (state_after st useMyLocation)
      = Some (lit "Geolocation not available in your browser.")
      /\ (forall b, ~ In (SetLoadingWeather b) (effects useMyLocation))
      /\ loadingWeather (state_after st useMyLocation) = loadingWeather st
      /\ ~ In GetCurrentPosition (effects useMyLocation)
      /\ requests (effects useMyLocation) = []).
Proof.
  split.
  - intros err Hgeo. unfold useMyLocation. rewrite Hgeo. step.
    split; reflexivity.
  - intro Hgeo. unfold useMyLocation. rewrite Hgeo. step.
    repeat split; try reflexivity.
    + intros b Hin. refute_membership Hin.
    + intro Hin. refute_membership Hin.
Qed.

(** *** Loading flags *)

(** [fetchWeatherByCoords] catches everything it throws. *)
Lemma fetchWeatherByCoords_completion
  (lat lon : number) (hint : option jsstring) :
  completion (fetchWeatherByCoords lat lon hint)
  = match network (forecastUrl lat lon) with
    | NeverSettles => Suspended
    | _ => Returned tt
    end.
Proof.
  run_forecast.
  destruct (network (forecastUrl lat lon)) as [res|err|]; step;
    [|reflexivity|reflexivity].
  destruct (ok res); step; [|reflexivity].
  destruct (JSON_parse_forecast (body res)) as [perr|[parsed|]]; step;
    [reflexivity| |reflexivity].
  destruct (current_weather parsed); reflexivity.
Qed.

Lemma fetchWeatherByCoords_loading
  (st : AppState) (lat lon : number) (hint : option jsstring) :
  loadingWeather (state_after st (fetchWeatherByCoords lat lon hint))
  = match network (forecastUrl lat lon) with
    | NeverSettles => true
    | _ => false
    end.
Proof.
  run_forecast.
  destruct (network (forecastUrl lat lon)) as [res|err|]; step;
    [|reflexivity|reflexivity].
  destruct (ok res); step; [|reflexivity].
  destruct (JSON_parse_forecast (body res)) as [perr|[parsed|]]; step;
    [reflexivity| |reflexivity].
  destruct (current_weather parsed); reflexivity.
Qed.

(** A search that was started ends suspended only on a request that never
    settles, with the flag still set; otherwise it returns with the flag
    cleared. *)
Lemma searchCity_completion_loading (st : AppState) (e : option FormEvent) :
  truthy (trim (query st)) = true ->
  (completion (searchCity st e) = Returned tt
   /\ loadingGeo (state_after st (searchCity st e)) = false)
  \/ (completion (searchCity st e) = Suspended
      /\ loadingGeo (state_after st (searchCity st e)) = true
      /\ exists encoded,
           encodeURIComponent (query st) = inr encoded
           /\ network (geocodingUrl encoded) = NeverSettles).
Proof.
  intro Hq. unfold searchCity, fetch. rewrite Hq.
  destruct (encodeURIComponent (query st)) as [uerr|encoded];
    [left; destruct e; split; reflexivity|].
  destruct (network (geocodingUrl encoded)) as [res|err|] eqn:Hnet.
  - left. step. rewrite Hnet. step.
    destruct (ok res); step; [|destruct e; split; reflexivity].
    destruct (JSON_parse_geocoding (body res)) as [perr|[found|]]; step;
      [destruct e; split; reflexivity| |destruct e; split; reflexivity].
    destruct (results found) as [[|c cs]|]; destruct e; split; reflexivity.
  - left. step. rewrite Hnet. destruct e; split; reflexivity.
  - right. step. rewrite Hnet.
    destruct e; (split; [reflexivity|]); (split; [reflexivity|]);
      exists encoded; (split; [reflexivity | exact Hnet]).
Qed.

(** C10. A geocoding search that was started and whose request settles,
    with any response or none (the encoding may throw first), has returned
    normally with [loadingGeo] false; a forecast fetch whose request
    settles, with any response, has returned normally with
    [loadingWeather] false. *)
Theorem loading_flags_cleared_on_resolution
  (st : AppState) (e : option FormEvent)
  (lat lon : number) (hint : option jsstring) :
  (truthy (trim (query st)) = true ->
   (forall encoded,
       encodeURIComponent (query st) = inr encoded ->
       network (geocodingUrl encoded) <> NeverSettles) ->
   completion (searchCity st e) = Returned tt
   /\ loadingGeo (state_after st (searchCity st e)) = false)
  /\ (network (forecastUrl lat lon) <> NeverSettles ->
      completion (fetchWeatherByCoords lat lon hint) = Returned tt
      /\ loadingWeather (state_after st (fetchWeatherByCoords lat lon hint))
         = false).
Proof.
  split.
  - intros Hq Hsettles.
    destruct (searchCity_completion_loading st e Hq)
      as [Hdone | (_ & _ & encoded & Henc & Hnever)].
    + exact Hdone.
    + exfalso. exact (Hsettles encoded Henc Hnever).
  - rewrite fetchWeatherByCoords_completion, fetchWeatherByCoords_loading.
    destruct (network (forecastUrl lat lon)); intro Hsettles;
      [split; reflexivity | split; reflexivity | congruence].
Qed.
(* ================================================================== *)
(** ** Further properties of the handlers *)

(** *** Blank queries *)

Lemma trimStart_nil_iff (s : jsstring) :
  trimStart s = [] <-> forallb isWhiteSpace s = true.
Proof.
  split; [|apply trimStart_blank].
  induction s as [|c s IH]; [reflexivity|].
  cbn [trimStart forallb]. destruct (isWhiteSpace c); [exact IH | discriminate].
Qed.

Lemma trimStart_head (s : jsstring) (c : N) (r : jsstring) :
  trimStart s = c :: r -> isWhiteSpace c = false.
Proof.
  induction s as [|d s IH]; [discriminate|].
  cbn [trimStart]. destruct (isWhiteSpace d) eqn:Hd; [exact IH|].
  intro H. injection H as -> _. exact Hd.
Qed.

Lemma forallb_rev {A} (f : A -> bool) (l : list A) :
  forallb f (rev l) = forallb f l.
Proof.
  induction l as [|x l IH]; [reflexivity|].
  cbn [rev forallb]. rewrite forallb_app, IH. cbn [forallb].
  rewrite andb_true_r. apply andb_comm.
Qed.

(** [s.trim()] is empty exactly when [s] is empty or all whitespace. *)
Lemma trim_nil_iff (s : jsstring) :
  trim s = [] <-> forallb isWhiteSpace s = true.
Proof.
  split; [|apply trim_blank].
  unfold trim, trimEnd. intro H.
  assert (Hrev : trimStart (rev (trimStart s)) = []).
  { destruct (trimStart (rev (trimStart s))); [reflexivity|].
    apply (f_equal (@List.length N)) in H.
    rewrite length_rev in H. discriminate H. }
  apply trimStart_nil_iff in Hrev. rewrite forallb_rev in Hrev.
  apply trimStart_nil_iff.
  destruct (trimStart s) as [|c r] eqn:Hs; [reflexivity|].
  apply trimStart_head in Hs. cbn [forallb] in Hrev.
  rewrite Hs in Hrev. discriminate Hrev.
Qed.

Lemma truthy_trim_iff (s : jsstring) :
  truthy (trim s) = true
  <-> exists c, In c s /\ isWhiteSpace c = false.
Proof.
  split.
  - intro H. destruct (forallb isWhiteSpace s) eqn:Hall.
    + rewrite (trim_blank s Hall) in H. discriminate H.
    + assert (Hex : existsb (fun c => negb (isWhiteSpace c)) s = true).
      { clear H. induction s as [|c s IH]; [discriminate|].
        cbn [forallb existsb] in *. destruct (isWhiteSpace c); cbn in *;
          [exact (IH Hall) | reflexivity]. }
      apply existsb_exists in Hex as (c & Hin & Hc).
      exists c. split; [exact Hin|]. now apply negb_true_iff.
  - intros (c & Hin & Hc).
    destruct (trim s) eqn:Ht; [|reflexivity].
    apply trim_nil_iff in Ht.
    rewrite forallb_forall in Ht. rewrite (Ht c Hin) in Hc. discriminate Hc.
Qed.

(** *** Geocoding search, path by path *)

Lemma or_else_default_nonempty (s d : jsstring) : d <> [] -> or_else s d <> [].
Proof. intro Hd. destruct s; [exact Hd | discriminate]. Qed.

(** Every path of [searchCity]: the guard, the URI encoding, the request,
    the status test, the parse, the [null] body and the three shapes of
    [results]. *)
Ltac search_cases st e :=
  unfold searchCity, fetch;
  let Hq := fresh "Hq" in
  let Henc := fresh "Henc" in
  let Hnet := fresh "Hnet" in
  let Hok := fresh "Hok" in
  let Hparse := fresh "Hparse" in
  let Hres := fresh "Hres" in
  destruct (truthy (trim (query st))) eqn:Hq;
  [ destruct (encodeURIComponent (query st)) as [?uerr|?encoded] eqn:Henc;
    step;
    [ | match goal with
        | |- context [network ?u] =>
            destruct (network u) as [?res|?err|] eqn:Hnet; step;
            [ match goal with
              | |- context [ok ?r] =>
                  destruct (ok r) eqn:Hok; step;
                  [ destruct (JSON_parse_geocoding (body r))
                      as [?perr|[?found|]] eqn:Hparse; step;
                    [ | match goal with
                        | |- context [results ?f] =>
                            destruct (results f) as [[|?c ?cs]|] eqn:Hres; step
                        end
                      | ]
                  | ]
              end
            | | ]
        end ]
  | ];
  destruct e; step.

(** X1. Whatever happens, a search leaves the query text and the weather
    loading flag as they were. *)
Theorem searchCity_keeps_query_and_weather_flag
  (st : AppState) (e : option FormEvent) :
  query (state_after st (searchCity st e)) = query st
  /\ loadingWeather (state_after st (searchCity st e)) = loadingWeather st.
Proof.
  search_cases st e; split; reflexivity.
Qed.

(** The state a search that found candidates leaves. *)
Lemma searchCity_stores_results_state
  (st : AppState) (e : option FormEvent) (encoded : jsstring)
  (res : Response) (found : GeocodingData)
  (c : LocationCandidate) (cs : list LocationCandidate) :
  truthy (trim (query st)) = true ->
  encodeURIComponent (query st) = inr encoded ->
  network (geocodingUrl encoded) = Resolved res ->
  ok res = true ->
  JSON_parse_geocoding (body res) = inr (Some found) ->
  results found = Some (c :: cs) ->
  state_after st (searchCity st e)
  = {| query := query st;
       locations := c :: cs;
       loadingGeo := false;
       loadingWeather := loadingWeather st;
       weather := None;
       error := None |}.
Proof.
  intros Hq Henc Hnet Hok Hparse Hres.
  unfold searchCity, fetch. rewrite Hq, Henc. step.
  rewrite Hnet. step. rewrite Hok, Hparse. step. rewrite Hres.
  destruct e; reflexivity.
Qed.

(** X2. When the geocoding response carries at least one result, the
    candidates are stored exactly as received, in the order of the
    response, with no error, no weather and the geocoding flag cleared;
    the query and the weather flag are untouched, and one request was
    made. *)
Theorem searchCity_stores_results
  (st : AppState) (e : option FormEvent) (encoded : jsstring)
  (res : Response) (found : GeocodingData)
  (c : LocationCandidate) (cs : list LocationCandidate) :
  truthy (trim (query st)) = true ->
  encodeURIComponent (query st) = inr encoded ->
  network (geocodingUrl encoded) = Resolved res ->
  ok res = true ->
  JSON_parse_geocoding (body res) = inr (Some found) ->
  results found = Some (c :: cs) ->
  state_after st (searchCity st e)
  = {| query := query st;
       locations := c :: cs;
       loadingGeo := false;
       loadingWeather := loadingWeather st;
       weather := None;
       error := None |}
  /\ completion (searchCity st e) = Returned tt
  /\ requests (effects (searchCity st e)) = [geocodingUrl encoded].
Proof.
  intros Hq Henc Hnet Hok Hparse Hres.
  split; [exact (searchCity_stores_results_state st e encoded res found c cs
                   Hq Henc Hnet Hok Hparse Hres)|].
  unfold searchCity, fetch. rewrite Hq, Henc. step.
  rewrite Hnet. step. rewrite Hok, Hparse. step. rewrite Hres.
  destruct e; split; reflexivity.
Qed.

(** X3. A geocoding response with a status outside 200-299 gives the
    error "Geocoding failed", whatever the status and the body are; the
    body is not parsed into candidates. *)
Theorem searchCity_bad_status
  (st : AppState) (e : option FormEvent) (encoded : jsstring)
  (res : Response) :
  truthy (trim (query st)) = true ->
  encodeURIComponent (query st) = inr encoded ->
  network (geocodingUrl encoded) = Resolved res ->
  status res < 200 \/ 299 < status res ->
  state_after st (searchCity st e)
  = {| query := query st;
       locations := [];
       loadingGeo := false;
       loadingWeather := loadingWeather st;
       weather := None;
       error := Some (lit "Geocoding failed") |}.
Proof.
  intros Hq Henc Hnet Hstatus.
  unfold searchCity, fetch. rewrite Hq, Henc. step.
  rewrite Hnet. step. rewrite (proj2 (ok_false_iff res) Hstatus). step.
  rewrite or_else_nonempty by lit_nonempty.
  destruct e; reflexivity.
Qed.

(** X4. An exception inside the search (the URI encoding throws, the
    request is rejected, or the body does not parse) ends as the error
    message: the exception's own message, or "Failed to search location."
    when that message is empty. No candidate is stored and the flag is
    cleared. *)
Theorem searchCity_reports_exception
  (st : AppState) (e : option FormEvent) (err : JsError) :
  truthy (trim (query st)) = true ->
  encodeURIComponent (query st) = inl err
  \/ (exists encoded,
        encodeURIComponent (query st) = inr encoded
        /\ (network (geocodingUrl encoded) = Rejected err
            \/ exists res,
                 network (geocodingUrl encoded) = Resolved res
                 /\ ok res = true
                 /\ JSON_parse_geocoding (body res) = inl err)) ->
  state_after st (searchCity st e)
  = {| query := query st;
       locations := [];
       loadingGeo := false;
       loadingWeather := loadingWeather st;
       weather := None;
       error :=
         Some match message err with
              | [] => lit "Failed to search location."
              | _ :: _ => message err
              end |}.
Proof.
  intros Hq Hthrown.
  assert (Hmsg : or_else (message err) (lit "Failed to search location.")
                 = match message err with
                   | [] => lit "Failed to search location."
                   | _ :: _ => message err
                   end)
    by (destruct (message err); reflexivity).
  unfold searchCity, fetch. rewrite Hq.
  destruct Hthrown as [Henc | (encoded & Henc & [Hnet | (res & Hnet & Hok & Hparse)])];
    rewrite Henc; step.
  - rewrite Hmsg. destruct e; reflexivity.
  - rewrite Hnet. step. rewrite Hmsg. destruct e; reflexivity.
  - rewrite Hnet. step. rewrite Hok, Hparse. step. rewrite Hmsg.
    destruct e; reflexivity.
Qed.

(** X5. A search makes at most one request: none for a blank query or
    when the URI encoding throws, otherwise exactly the geocoding URL
    around the encoded query text as typed (not trimmed). *)
Theorem searchCity_requests (st : AppState) (e : option FormEvent) :
  requests (effects (searchCity st e))
  = if truthy (trim (query st))
    then match encodeURIComponent (query st) with
         | inr encoded => [geocodingUrl encoded]
         | inl _ => []
         end
    else [].
Proof.
  search_cases st e; reflexivity.
Qed.

(** X6. The search is started (the geocoding flag is raised) exactly when
    the query holds at least one character that is not whitespace. *)
Theorem searchCity_starts_iff_query_not_blank
  (st : AppState) (e : option FormEvent) :
  In (SetLoadingGeo true) (effects (searchCity st e))
  <-> exists c, In c (query st) /\ isWhiteSpace c = false.
Proof.
  rewrite <- truthy_trim_iff.
  search_cases st e; split; intro H; try reflexivity; try discriminate H;
    try solve [cbn; repeat first [left; reflexivity | right]];
    try refute_membership H.
Qed.


(** *** Forecast fetch, path by path *)

(** Every path of [fetchWeatherByCoords]: the request, the status test,
    the parse, the [null] body and the presence of [current_weather]. *)
Ltac forecast_cases lat lon :=
  run_forecast;
  let Hnet := fresh "Hnet" in
  let Hok := fresh "Hok" in
  let Hparse := fresh "Hparse" in
  let Hcw := fresh "Hcw" in
  destruct (network (forecastUrl lat lon)) as [?res|?err|] eqn:Hnet; step;
  [ match goal with
    | |- context [ok ?r] =>
        destruct (ok r) eqn:Hok; step;
        [ destruct (JSON_parse_forecast (body r)) as [?perr|[?parsed|]]
            eqn:Hparse; step;
          [ | match goal with
              | |- context [current_weather ?d] =>
                  destruct (current_weather d) as [?cw|] eqn:Hcw; step
              end
            | ]
        | ]
    end
  | | ].

(** The error an effect sets, when it sets a non-null one. *)
Ltac error_set_nonempty H :=
  repeat (let Heq := fresh "Heq" in
          destruct H as [Heq | H];
          [ try discriminate Heq; injection Heq as <-;
            first [ apply or_else_default_nonempty; lit_nonempty
                  | lit_nonempty
                  | discriminate ]
          | ]);
  destruct H.

(** X8. Once a forecast fetch has settled, the weather flag is cleared,
    no candidate is listed, and exactly one of the two holds: a snapshot
    is stored and there is no error, or there is a non-empty error message
    and no snapshot. *)
Theorem fetchWeatherByCoords_snapshot_or_error
  (st : AppState) (lat lon : number) (hint : option jsstring) :
  network (forecastUrl lat lon) <> NeverSettles ->
  let st' := state_after st (fetchWeatherByCoords lat lon hint) in
  loadingWeather st' = false
  /\ locations st' = []
  /\ ((exists w, weather st' = Some w /\ error st' = None)
      \/ (weather st' = None
          /\ exists m, error st' = Some m /\ m <> [])).
Proof.
  intros Hsettles st'. subst st'. revert Hsettles.
  forecast_cases lat lon; intro Hsettles;
    try (exfalso; apply Hsettles; reflexivity);
    (split; [reflexivity|]); (split; [reflexivity|]);
    try (left; eexists; split; reflexivity);
    right; (split; [reflexivity|]); eexists; (split; [reflexivity|]);
    apply or_else_default_nonempty; lit_nonempty.
Qed.

(** X9. A 2xx forecast response whose body does not parse gives the
    error "Unexpected response format from API" whatever the parser
    complained about; the raw body goes to [console.error] and no snapshot
    is stored. *)
Theorem fetchWeatherByCoords_unparsable_body
  (st : AppState) (lat lon : number) (hint : option jsstring)
  (res : Response) (parseErr : JsError) :
  network (forecastUrl lat lon) = Resolved res ->
  ok res = true ->
  JSON_parse_forecast (body res) = inl parseErr ->
  let run := fetchWeatherByCoords lat lon hint in
  error (state_after st run)
    = Some (lit "Unexpected response format from API")
  /\ weather (state_after st run) = None
  /\ In (ConsoleError (lit "Failed to parse weather JSON. Raw response:")
           (LogString (body res)))
        (effects run).
Proof.
  intros Hnet Hok Hparse run. subst run. run_forecast.
  rewrite Hnet. step. rewrite Hok, Hparse. step.
  rewrite or_else_nonempty by lit_nonempty.
  split; [reflexivity|]. split; [reflexivity|].
  cbn. repeat first [left; reflexivity | right].
Qed.

(** X10. A rejected forecast request ends as the error message: the
    rejection's own message, or "Failed to fetch weather." when that
    message is empty. No snapshot is stored and the flag is cleared. *)
Theorem fetchWeatherByCoords_rejected
  (st : AppState) (lat lon : number) (hint : option jsstring)
  (err : JsError) :
  network (forecastUrl lat lon) = Rejected err ->
  let st' := state_after st (fetchWeatherByCoords lat lon hint) in
  error st'
    = Some match message err with
           | [] => lit "Failed to fetch weather."
           | _ :: _ => message err
           end
  /\ weather st' = None
  /\ loadingWeather st' = false.
Proof.
  intros Hnet st'. subst st'. run_forecast. rewrite Hnet. step.
  repeat split. destruct (message err); reflexivity.
Qed.

(** The state a forecast fetch leaves depends on the state it started
    from only through the geocoding flag. *)
Lemma fetchWeatherByCoords_forgets_state
  (st1 st2 : AppState) (lat lon : number) (hint : option jsstring) :
  loadingGeo st1 = loadingGeo st2 ->
  state_after st1 (fetchWeatherByCoords lat lon hint)
  = state_after st2 (fetchWeatherByCoords lat lon hint).
Proof.
  forecast_cases lat lon; intros ->; reflexivity.
Qed.

(** X11. A forecast fetch overwrites the query, the candidates, the
    weather flag, the snapshot and the error: the state it leaves depends
    on the state it started from only through the geocoding flag, which it
    never changes. *)
Theorem fetchWeatherByCoords_overwrites_state
  (st1 st2 : AppState) (lat lon : number) (hint : option jsstring) :
  loadingGeo (state_after st1 (fetchWeatherByCoords lat lon hint))
    = loadingGeo st1
  /\ (loadingGeo st1 = loadingGeo st2 ->
      state_after st1 (fetchWeatherByCoords lat lon hint)
      = state_after st2 (fetchWeatherByCoords lat lon hint)).
Proof.
  split; [|apply fetchWeatherByCoords_forgets_state].
  forecast_cases lat lon; reflexivity.
Qed.

(** X12. While the forecast request has not settled the handler stays
    suspended with the weather flag raised, no snapshot and no error, so
    the loading line is shown and the weather card is not. *)
Theorem fetchWeatherByCoords_pending
  (st : AppState) (lat lon : number) (hint : option jsstring) :
  network (forecastUrl lat lon) = NeverSettles ->
  let run := fetchWeatherByCoords lat lon hint in
  completion run = Suspended
  /\ loadingWeather (state_after st run) = true
  /\ weather (state_after st run) = None
  /\ error (state_after st run) = None
  /\ exists v,
       render (state_after st run) = Shown v
       /\ view_loadingWeather v = true
       /\ view_card v = None
       /\ view_error v = None.
Proof.
  intros Hnet run. subst run. run_forecast. rewrite Hnet. step.
  repeat (split; [reflexivity|]).
  eexists. split; [reflexivity|]. repeat split.
Qed.

(** *** Device location, the other paths *)

Lemma effects_perform_then {A} (e : Effect) (k : Act A) :
  effects (perform e ;; k) = e :: effects k.
Proof. destruct k as [t c]. reflexivity. Qed.

Lemma completion_perform_then {A} (e : Effect) (k : Act A) :
  completion (perform e ;; k) = completion k.
Proof. destruct k as [t c]. reflexivity. Qed.

Lemma state_after_perform_then {A} (st : AppState) (e : Effect) (k : Act A) :
  state_after st (perform e ;; k) = state_after (apply st e) k.
Proof. unfold state_after. rewrite effects_perform_then. reflexivity. Qed.

(** X13. When the device reports a position, [useMyLocation] ends in the
    state the forecast fetch for that position leaves, labelled
    "Your location", and requests exactly that position's forecast. *)
Theorem useMyLocation_fetches_position
  (st : AppState) (lat lon : number) :
  navigator_geolocation = Some (Resolved (Coords lat lon)) ->
  let fetched := fetchWeatherByCoords lat lon (Some (lit "Your location")) in
  state_after st useMyLocation = state_after st fetched
  /\ completion useMyLocation = completion fetched
  /\ requests (effects useMyLocation) = [forecastUrl lat lon]
  /\ query (state_after st useMyLocation) = lit "Your location".
Proof.
  intros Hgeo fetched. subst fetched. unfold useMyLocation. rewrite Hgeo.
  rewrite !state_after_perform_then, !completion_perform_then,
    !effects_perform_then.
  cbn [requests].
  rewrite fetchWeatherByCoords_requests, fetchWeatherByCoords_query.
  repeat split.
  apply fetchWeatherByCoords_forgets_state. reflexivity.
Qed.

(** X14. When the device never answers, [useMyLocation] has returned
    with the weather flag raised and nothing else changed but the error,
    which is cleared; nothing is requested, and the weather card is hidden
    behind the loading line even if a snapshot is still stored. *)
Theorem useMyLocation_without_callback (st : AppState) :
  navigator_geolocation = Some NeverSettles ->
  state_after st useMyLocation
  = {| query := query st;
       locations := locations st;
       loadingGeo := loadingGeo st;
       loadingWeather := true;
       weather := weather st;
       error := None |}
  /\ completion useMyLocation = Returned tt
  /\ requests (effects useMyLocation) = []
  /\ exists v,
       render (state_after st useMyLocation) = Shown v
       /\ view_card v = None
       /\ view_loadingWeather v = true.
Proof.
  intro Hgeo. unfold useMyLocation. rewrite Hgeo. step.
  repeat (split; [reflexivity|]).
  unfold render. cbn.
  destruct (weather st); eexists; (split; [reflexivity|]); split; reflexivity.
Qed.

(** *** Error messages *)

Lemma fetchWeatherByCoords_error_nonempty
  (lat lon : number) (hint : option jsstring) (m : jsstring) :
  In (SetError (Some m)) (effects (fetchWeatherByCoords lat lon hint)) ->
  m <> [].
Proof.
  forecast_cases lat lon; intro H; error_set_nonempty H.
Qed.

(** X15. No handler ever sets an empty error message: whenever one of
    them calls [setError] with a string, the string is not empty, so the
    error box, which is rendered only for a truthy message, shows every
    error that is set. *)
Theorem handlers_never_set_empty_error
  (st : AppState) (e : option FormEvent) (lat lon : number)
  (hint : option jsstring) (loc : LocationCandidate) (m : jsstring) :
  In (SetError (Some m)) (effects (searchCity st e))
  \/ In (SetError (Some m)) (effects (fetchWeatherByCoords lat lon hint))
  \/ In (SetError (Some m)) (effects (onSelectLocation loc))
  \/ In (SetError (Some m)) (effects useMyLocation) ->
  m <> [].
Proof.
  intros [H | [H | [H | H]]].
  - revert H. search_cases st e; intro H; error_set_nonempty H.
  - exact (fetchWeatherByCoords_error_nonempty _ _ _ _ H).
  - exact (fetchWeatherByCoords_error_nonempty _ _ _ _ H).
  - revert H. unfold useMyLocation.
    destruct navigator_geolocation as [[[plat plon]|gerr|]|].
    + rewrite !effects_perform_then. intro H.
      destruct H as [Heq | [Heq | [Heq | H]]]; try discriminate Heq.
      exact (fetchWeatherByCoords_error_nonempty _ _ _ _ H).
    + step. intro H. error_set_nonempty H.
    + step. intro H. error_set_nonempty H.
    + step. intro H. error_set_nonempty H.
Qed.

(** X16. While the geocoding request has not settled the search stays
    suspended with the geocoding flag raised: the "Looking up
    locations..." line is shown, with no candidate, no weather card and no
    error. *)
Theorem searchCity_pending
  (st : AppState) (e : option FormEvent) (encoded : jsstring) :
  truthy (trim (query st)) = true ->
  encodeURIComponent (query st) = inr encoded ->
  network (geocodingUrl encoded) = NeverSettles ->
  let run := searchCity st e in
  completion run = Suspended
  /\ state_after st run
     = {| query := query st;
          locations := [];
          loadingGeo := true;
          loadingWeather := loadingWeather st;
          weather := None;
          error := None |}
  /\ exists v,
       render (state_after st run) = Shown v
       /\ view_lookingUp v = true
       /\ view_candidates v = None
       /\ view_card v = None
       /\ view_error v = None.
Proof.
  intros Hq Henc Hnet run. subst run.
  unfold searchCity, fetch. rewrite Hq, Henc. step. rewrite Hnet.
  destruct e; (split; [reflexivity|]); (split; [reflexivity|]);
    eexists; (split; [reflexivity|]); repeat split.
Qed.

(** *** Daily rows *)

Lemma nth_error_map_indexed {A B} (f : A -> nat -> B) (idx : nat)
  (arr : list A) (i : nat) :
  nth_error (map_indexed f idx arr) i
  = option_map (fun x => f x (idx + i)%nat) (nth_error arr i).
Proof.
  revert idx i. induction arr as [|x rest IH]; intros idx [|i];
    try reflexivity.
  - cbn. rewrite Nat.add_0_r. reflexivity.
  - cbn [map_indexed nth_error]. rewrite IH.
    rewrite Nat.add_succ_r. reflexivity.
Qed.

Lemma nth_error_firstn_some {A} (n : nat) (l : list A) (i : nat) (x : A) :
  nth_error (firstn n l) i = Some x ->
  (i < n)%nat /\ nth_error l i = Some x.
Proof.
  revert l i. induction n as [|n IH]; intros l i H.
  - destruct i; discriminate H.
  - destruct l as [|y l]; [destruct i; discriminate H|].
    destruct i as [|i]; cbn in H.
    + split; [lia | exact H].
    + apply IH in H as [Hlt Hnth]. split; [lia | exact Hnth].
Qed.

(** Whether the rows can be rendered is decided by the arrays alone. *)
Lemma forecastRows_crashed_iff (w : Weather) :
  forecastRows w = Crashed <-> rowsRenderable (daily (data w)) = false.
Proof.
  unfold forecastRows, rowsRenderable, slice_0_3.
  destruct (daily (data w)) as [d|]; [|split; discriminate].
  destruct (time d) as [[|day days]|]; try (split; discriminate).
  destruct (weathercode d) as [codes|] eqn:Hcodes;
    [destruct (temperature_2m_max d) as [maxs|] eqn:Hmaxs;
     [destruct (temperature_2m_min d) as [mins|] eqn:Hmins|]|].
  - destruct (all_shown_complete d codes maxs mins
                (firstn 3 (day :: days)) 0 Hcodes Hmaxs Hmins)
      as [rows ->].
    split; discriminate.
  - cbn. unfold forecastRow. rewrite Hcodes, Hmaxs, Hmins. split; reflexivity.
  - cbn. unfold forecastRow. rewrite Hcodes, Hmaxs. split; reflexivity.
  - cbn. unfold forecastRow. rewrite Hcodes. split; reflexivity.
Qed.

Lemma all_shown_nth (d : Daily) (days : list jsstring) (idx : nat)
  (rows : list ForecastRow) (i : nat) (row : ForecastRow) :
  all_shown (map_indexed (forecastRow d) idx days) = Shown rows ->
  nth_error rows i = Some row ->
  exists day,
    nth_error days i = Some day
    /\ forecastRow d day (idx + i)%nat = Shown row.
Proof.
  revert idx rows i.
  induction days as [|day days IH]; intros idx rows i H Hrow.
  - injection H as <-. destruct i; discriminate Hrow.
  - cbn [map_indexed] in H.
    apply all_shown_cons in H as (first & others & Hfirst & Hrest & ->).
    destruct i as [|i]; cbn in Hrow.
    + injection Hrow as <-. exists day. rewrite Nat.add_0_r.
      split; [reflexivity | exact Hfirst].
    + destruct (IH _ _ _ Hrest Hrow) as (day' & Hday & Hshown).
      exists day'. rewrite Nat.add_succ_r. split; assumption.
Qed.

(** X17. The daily forecast throws exactly when there is at least one
    day to show and one of the three parallel arrays is missing.
    Otherwise it shows the first three stored days and no more (all of
    them when there are fewer, none when [daily] or [daily.time] is
    absent), and its [i]-th row pairs the [i]-th day with the [i]-th
    entries of the three parallel arrays: the condition text of the
    [i]-th weather code ("Unknown" when that array is shorter) and the
    rounded [i]-th maximum and minimum. *)
Theorem forecastRows_zip_by_index (w : Weather) :
  (forecastRows w = Crashed
   <-> exists d day days,
         daily (data w) = Some d
         /\ time d = Some (day :: days)
         /\ (weathercode d = None
             \/ temperature_2m_max d = None
             \/ temperature_2m_min d = None))
  /\ forall rows,
       forecastRows w = Shown rows ->
       List.length rows = Nat.min 3 (List.length (storedDays w))
       /\ forall i row,
            nth_error rows i = Some row ->
            (i < 3)%nat
            /\ nth_error (storedDays w) i = Some (row_day row)
            /\ exists d codes maxs mins,
                 daily (data w) = Some d
                 /\ weathercode d = Some codes
                 /\ temperature_2m_max d = Some maxs
                 /\ temperature_2m_min d = Some mins
                 /\ row_condition row = text (mapWeather (nth_error codes i))
                 /\ row_max row = Math_round (nth_error maxs i)
                 /\ row_min row = Math_round (nth_error mins i)
                 /\ (nth_error codes i = None ->
                     row_condition row = lit "Unknown").
Proof.
  split.
  - rewrite forecastRows_crashed_iff. unfold rowsRenderable.
    destruct (daily (data w)) as [d|];
      [|split; [discriminate | intros (? & ? & ? & H & _); discriminate H]].
    destruct (time d) as [[|day days]|] eqn:Htime;
      try (split; [discriminate
                  | intros (? & ? & ? & H & H' & _);
                    injection H as <-; rewrite Htime in H';
                    discriminate H']).
    split.
    + intro H. exists d, day, days. split; [reflexivity|].
      split; [exact Htime|].
      destruct (weathercode d); [|left; reflexivity].
      destruct (temperature_2m_max d); [|right; left; reflexivity].
      destruct (temperature_2m_min d); [discriminate H|].
      right; right; reflexivity.
    + intros (d' & day' & days' & Hd & _ & Hmissing).
      injection Hd as <-.
      destruct Hmissing as [-> | [-> | ->]];
        [reflexivity
        |destruct (weathercode d); reflexivity
        |destruct (weathercode d), (temperature_2m_max d); reflexivity].
  - intros rows Hrows. split; [exact (forecastRows_length w rows Hrows)|].
    intros i row Hrow. revert Hrows.
    unfold forecastRows, storedDays, slice_0_3.
    destruct (daily (data w)) as [d|];
      [|intro H; injection H as <-; destruct i; discriminate Hrow].
    destruct (time d) as [days|];
      [|intro H; injection H as <-; destruct i; discriminate Hrow].
    intro Hrows.
    destruct (all_shown_nth d _ _ _ _ _ Hrows Hrow) as (day & Hday & Hshown).
    apply nth_error_firstn_some in Hday as [Hlt Hday].
    cbn [Nat.add] in Hshown.
    rewrite (forecastRow_day _ _ _ _ Hshown).
    split; [exact Hlt|]. split; [exact Hday|].
    unfold forecastRow in Hshown.
    destruct (weathercode d) as [codes|] eqn:Hcodes; [|discriminate Hshown].
    destruct (temperature_2m_max d) as [maxs|] eqn:Hmaxs;
      [|discriminate Hshown].
    destruct (temperature_2m_min d) as [mins|] eqn:Hmins;
      [|discriminate Hshown].
    injection Hshown as <-.
    exists d, codes, maxs, mins. cbn.
    repeat (split; [first [assumption | reflexivity]|]).
    intros ->. reflexivity.
Qed.

(** *** Weather codes *)

(** X18. A code is shown as "Unknown" exactly when it is not one of the
    thirteen codes of the table: no listed code falls back to the unknown
    descriptor. *)
Theorem mapWeather_unknown_iff (c : Z) :
  mapWeather (Some c) = unknownDescriptor <-> ~ In c knownCodes.
Proof.
  split.
  - intros Hunknown Hin.
    repeat (destruct Hin as [<- | Hin];
            [vm_compute in Hunknown; discriminate Hunknown|]).
    destruct Hin.
  - intro Hout. unfold mapWeather.
    rewrite lookup_code_absent; [reflexivity|].
    rewrite knownCodes_are_keys. exact Hout.
Qed.

(** *** What is shown after an operation *)

Lemma truthy_nonempty (s : jsstring) : s <> [] -> truthy s = true.
Proof. destruct s; [congruence | reflexivity]. Qed.

(** The view of a state that holds a snapshot and is not loading: the
    card with its rows, or nothing when the rows throw. *)
Lemma render_snapshot (st : AppState) (w : Weather) :
  weather st = Some w ->
  loadingWeather st = false ->
  if rowsRenderable (daily (data w))
  then exists v card,
         render st = Shown v
         /\ view_card v = Some card
         /\ weatherCard w = Shown card
         /\ forecastRows w = Shown (card_rows card)
         /\ view_query v = query st
         /\ view_lookingUp v = loadingGeo st
         /\ view_loadingWeather v = false
         /\ view_error v
            = match error st with
              | Some m => if truthy m then Some m else None
              | None => None
              end
         /\ view_candidates v
            = match locations st with
              | [] => None
              | _ :: _ => Some (map candidateItem (locations st))
              end
  else render st = Crashed.
Proof.
  intros Hw Hloading. unfold render. rewrite Hw, Hloading.
  unfold weatherCard.
  destruct (rowsRenderable (daily (data w))) eqn:Hrows.
  - destruct (forecastRows w) as [rows|] eqn:Hshown.
    + do 2 eexists. split; [reflexivity|]. repeat split.
    + apply forecastRows_crashed_iff in Hshown. congruence.
  - apply forecastRows_crashed_iff in Hrows. rewrite Hrows. reflexivity.
Qed.

(** The two shapes of the state a settled forecast fetch leaves. *)
Lemma fetchWeatherByCoords_settled_state
  (st : AppState) (lat lon : number) (hint : option jsstring) :
  network (forecastUrl lat lon) <> NeverSettles ->
  let shown :=
    match hint with
    | Some p => p
    | None => Number_toFixed lat 2 ++ lit ", " ++ Number_toFixed lon 2
    end in
  (exists m,
      m <> []
      /\ state_after st (fetchWeatherByCoords lat lon hint)
         = {| query := shown; locations := []; loadingGeo := loadingGeo st;
              loadingWeather := false; weather := None; error := Some m |})
  \/ (exists w,
        state_after st (fetchWeatherByCoords lat lon hint)
        = {| query := shown; locations := []; loadingGeo := loadingGeo st;
             loadingWeather := false; weather := Some w; error := None |}).
Proof.
  intros Hsettles shown. subst shown. revert Hsettles.
  forecast_cases lat lon; intro Hsettles;
    try (exfalso; apply Hsettles; reflexivity);
    try (right; eexists; reflexivity);
    left; eexists; (split; [|reflexivity]);
    apply or_else_default_nonempty; lit_nonempty.
Qed.

(** X19. After a forecast fetch has settled, either there is a non-empty
    error and the view shows it in the error box with no card, no loading
    line and no candidate list; or a snapshot is stored with no error, and
    then the view shows the weather card with no error box, no loading
    line and no candidate list, unless the snapshot has days to show and
    lacks one of the three parallel arrays, in which case rendering throws
    and nothing is shown. *)
Theorem render_after_fetch
  (st : AppState) (lat lon : number) (hint : option jsstring) :
  network (forecastUrl lat lon) <> NeverSettles ->
  let st' := state_after st (fetchWeatherByCoords lat lon hint) in
  (exists m v,
      error st' = Some m
      /\ m <> []
      /\ render st' = Shown v
      /\ view_error v = Some m
      /\ view_card v = None
      /\ view_loadingWeather v = false
      /\ view_candidates v = None)
  \/ (exists w,
        weather st' = Some w
        /\ error st' = None
        /\ if rowsRenderable (daily (data w))
           then exists v card,
                  render st' = Shown v
                  /\ view_card v = Some card
                  /\ view_error v = None
                  /\ view_loadingWeather v = false
                  /\ view_candidates v = None
           else render st' = Crashed).
Proof.
  intros Hsettles st'. subst st'.
  destruct (fetchWeatherByCoords_settled_state st lat lon hint Hsettles)
    as [(m & Hm & ->) | (w & ->)].
  - left. exists m. eexists.
    split; [reflexivity|]. split; [exact Hm|].
    unfold render. cbn - [truthy]. rewrite (truthy_nonempty m Hm).
    repeat split.
  - right. exists w. split; [reflexivity|]. split; [reflexivity|].
    match goal with
    | |- context [render ?s] =>
        pose proof (render_snapshot s w eq_refl eq_refl) as Hview
    end.
    destruct (rowsRenderable (daily (data w))); [|exact Hview].
    destruct Hview
      as (v & card & Hv & Hcard & _ & _ & _ & _ & Hload & Herr & Hcand).
    exists v, card. repeat split; assumption.
Qed.


(** X21. Clicking a listed candidate whose forecast fetch succeeds, with
    daily arrays that can be rendered, leaves a weather card headed by the
    very title the candidate was listed under; the search box shows that
    title too, and the list and any error are gone. *)
Theorem clicked_candidate_heads_card
  (st : AppState) (loc : LocationCandidate)
  (res : Response) (parsed : ForecastData) (cw : CurrentWeather) :
  network (forecastUrl (latitude loc) (longitude loc)) = Resolved res ->
  ok res = true ->
  JSON_parse_forecast (body res) = inr (Some parsed) ->
  current_weather parsed = Some cw ->
  rowsRenderable (daily parsed) = true ->
  let item := candidateItem loc in
  exists v card,
    render (state_after st (item_onClick item)) = Shown v
    /\ view_query v = item_title item
    /\ view_candidates v = None
    /\ view_error v = None
    /\ view_loadingWeather v = false
    /\ view_card v = Some card
    /\ card_place card = item_title item.
Proof.
  intros Hnet Hok Hparse Hcw Hrows item. subst item.
  cbn [item_onClick candidateItem item_title]. unfold onSelectLocation.
  rewrite (fetchWeatherByCoords_success st _ _ _ res parsed cw)
    by assumption.
  match goal with
  | |- context [render ?s] =>
      pose proof (render_snapshot s _ eq_refl eq_refl) as Hview
  end.
  cbn [data] in Hview. rewrite Hrows in Hview.
  destruct Hview
    as (v & card & Hv & Hcard & Hshown & _ & Hq & _ & Hload & Herr & Hcand).
  exists v, card. repeat (split; [assumption|]).
  unfold weatherCard in Hshown.
  destruct (forecastRows _); [|discriminate Hshown].
  injection Hshown as <-. reflexivity.
Qed.

(** X22. After a successful forecast fetch with daily arrays that can be
    rendered, the card is headed by the hint, else by the response's
    timezone, else by "Location"; its icon and condition are those of the
    current weather code (the unknown descriptor when the code is
    missing), its "As of" line carries the observation time when there is
    one, and it has at most three rows. *)
Theorem card_after_successful_fetch
  (st : AppState) (lat lon : number) (hint : option jsstring)
  (res : Response) (parsed : ForecastData) (cw : CurrentWeather) :
  network (forecastUrl lat lon) = Resolved res ->
  ok res = true ->
  JSON_parse_forecast (body res) = inr (Some parsed) ->
  current_weather parsed = Some cw ->
  rowsRenderable (daily parsed) = true ->
  exists v card,
    render (state_after st (fetchWeatherByCoords lat lon hint)) = Shown v
    /\ view_card v = Some card
    /\ card_place card
       = match hint, timezone parsed with
         | Some p, _ => p
         | None, Some tz => tz
         | None, None => lit "Location"
         end
    /\ card_icon card = icon (mapWeather (current_weathercode cw))
    /\ detail_condition card = text (mapWeather (current_weathercode cw))
    /\ card_asOf card
       = lit "As of: "
         ++ match current_time cw with
            | Some t => t
            | None => lit ""
            end
    /\ (List.length (card_rows card) <= 3)%nat.
Proof.
  intros Hnet Hok Hparse Hcw Hrows.
  rewrite (fetchWeatherByCoords_success st lat lon hint res parsed cw)
    by assumption.
  match goal with
  | |- context [render ?s] =>
      pose proof (render_snapshot s _ eq_refl eq_refl) as Hview
  end.
  cbn [data] in Hview. rewrite Hrows in Hview.
  destruct Hview as (v & card & Hv & Hcard & Hshown & Hshownrows & _).
  exists v, card. split; [exact Hv|]. split; [exact Hcard|].
  assert (Hlen : (List.length (card_rows card) <= 3)%nat).
  { rewrite (forecastRows_length _ _ Hshownrows). apply Nat.le_min_l. }
  unfold weatherCard in Hshown.
  destruct (forecastRows _); [|discriminate Hshown].
  injection Hshown as <-. cbn - [mapWeather] in Hlen |- *. rewrite Hcw.
  split; [destruct hint, (timezone parsed); reflexivity|].
  repeat (split; [reflexivity|]).
  exact Hlen.
Qed.

(** *** Sequences of operations *)

(** X23. A search that lists candidates followed by the selection of
    any candidate whose forecast fetch succeeds ends in one state whatever
    the state before the search was: the label as query, no candidate,
    both flags cleared, the snapshot under the label and no error. *)
Theorem search_then_select
  (st : AppState) (e : option FormEvent) (encoded : jsstring)
  (res : Response) (found : GeocodingData)
  (c : LocationCandidate) (cs : list LocationCandidate)
  (loc : LocationCandidate)
  (fres : Response) (parsed : ForecastData) (cw : CurrentWeather) :
  truthy (trim (query st)) = true ->
  encodeURIComponent (query st) = inr encoded ->
  network (geocodingUrl encoded) = Resolved res ->
  ok res = true ->
  JSON_parse_geocoding (body res) = inr (Some found) ->
  results found = Some (c :: cs) ->
  network (forecastUrl (latitude loc) (longitude loc)) = Resolved fres ->
  ok fres = true ->
  JSON_parse_forecast (body fres) = inr (Some parsed) ->
  current_weather parsed = Some cw ->
  state_after (state_after st (searchCity st e)) (onSelectLocation loc)
  = {| query := locationLabel loc;
       locations := [];
       loadingGeo := false;
       loadingWeather := false;
       weather :=
         Some {| data := parsed; placeName := Some (locationLabel loc) |};
       error := None |}.
Proof.
  intros Hq Henc Hnet Hok Hparse Hres Hfnet Hfok Hfparse Hcw.
  rewrite (searchCity_stores_results_state st e encoded res found c cs)
    by assumption.
  unfold onSelectLocation.
  rewrite (fetchWeatherByCoords_success _ _ _ _ fres parsed cw)
    by assumption.
  reflexivity.
Qed.

(** X24. Typing in the search box changes the query text only and
    requests nothing; submitting afterwards searches for the text as
    typed. *)
Theorem onChange_then_search
  (st : AppState) (value : jsstring) (e : option FormEvent) :
  let typed := state_after st (onChange value) in
  typed
  = {| query := value;
       locations := locations st;
       loadingGeo := loadingGeo st;
       loadingWeather := loadingWeather st;
       weather := weather st;
       error := error st |}
  /\ requests (effects (onChange value)) = []
  /\ requests (effects (searchCity typed e))
     = if truthy (trim value)
       then match encodeURIComponent value with
            | inr encoded => [geocodingUrl encoded]
            | inl _ => []
            end
       else [].
Proof.
  intro typed. subst typed.
  split; [reflexivity|]. split; [reflexivity|].
  set (typed := state_after st (onChange value)).
  change value with (query typed) at 1 2.
  clearbody typed.
  search_cases typed e; reflexivity.
Qed.

End Component.

Arguments mkLocation {number}.
Arguments name {number}.
Arguments admin1 {number}.
Arguments country {number}.
Arguments latitude {number}.
Arguments longitude {number}.
Arguments population {number}.
Arguments mkGeocodingData {number}.
Arguments results {number}.
Arguments mkCurrentWeather {number}.
Arguments mkDaily {number}.
Arguments time {number}.
Arguments weathercode {number}.
Arguments temperature_2m_max {number}.
Arguments temperature_2m_min {number}.
Arguments mkForecastData {number}.
Arguments current_weather {number}.
Arguments daily {number}.
Arguments timezone {number}.
Arguments mkWeather {number}.
Arguments data {number}.
Arguments placeName {number}.
Arguments Coords {number}.
Arguments mkState {number}.
Arguments query {number}.
Arguments locations {number}.
Arguments loadingGeo {number}.
Arguments loadingWeather {number}.
Arguments weather {number}.
Arguments error {number}.
Arguments initialState {number}.
Arguments SetQuery {number}.
Arguments SetLocations {number}.
Arguments SetLoadingGeo {number}.
Arguments SetLoadingWeather {number}.
Arguments SetWeather {number}.
Arguments SetError {number}.
Arguments Fetch {number}.
Arguments GetCurrentPosition {number}.
Arguments PreventDefault {number}.
Arguments effects {number A}.
Arguments completion {number A}.
Arguments state_after {number A}.
Arguments requests {number}.
Arguments is_setter {number}.
Arguments locationLabel {number}.
Arguments storedDays {number}.
Arguments row_day {number}.
Arguments row_condition {number}.
Arguments row_max {number}.
Arguments row_min {number}.
Arguments mkRow {number}.
Arguments ConsoleLog {number}.
Arguments ConsoleError {number}.
Arguments item_key {number}.
Arguments item_title {number}.
Arguments item_place {number}.
Arguments item_population {number}.
Arguments item_onClick {number}.
Arguments card_icon {number}.
Arguments card_place {number}.
Arguments card_asOf {number}.
Arguments card_temperature {number}.
Arguments card_wind {number}.
Arguments detail_temperature {number}.
Arguments detail_windspeed {number}.
Arguments detail_winddirection {number}.
Arguments detail_condition {number}.
Arguments card_rows {number}.
Arguments view_query {number}.
Arguments view_lookingUp {number}.
Arguments view_candidates {number}.
Arguments view_loadingWeather {number}.
Arguments view_error {number}.
Arguments view_card {number}.
Arguments rowsRenderable {number}.

(* ================================================================== *)
(** ** Concrete runs *)

Module Fixture.

(** A host for concrete runs: whole numbers and NaN, formatted as
    JavaScript formats them. *)
Inductive Num : Type :=
| NaN
| Int (z : Z).

Definition Num_toString (x : Num) : jsstring :=
  match x with
  | NaN => lit "NaN"
  | Int z => of_Z z
  end.

Definition Num_toFixed (x : Num) (digits : N) : jsstring :=
  match x with
  | NaN => lit "NaN"
  | Int z =>
      of_Z z ++ (if digits =? 0 then []
                 else lit "." ++ repeat 48 (N.to_nat digits))
  end.

Definition Num_round (x : option Num) : Num :=
  match x with
  | Some (Int z) => Int z
  | Some NaN | None => NaN
  end.

(** [encodeURIComponent]: unreserved characters stay, every other code
    point becomes the percent-escapes of its UTF-8 bytes, and a lone
    surrogate throws. *)
Definition isUnreserved (c : N) : bool :=
  ((65 <=? c) && (c <=? 90)) || ((97 <=? c) && (c <=? 122))
  || ((48 <=? c) && (c <=? 57))
  || existsb (N.eqb c) [45; 95; 46; 33; 126; 42; 39; 40; 41].

Definition hexDigit (n : N) : N := if n <? 10 then 48 + n else 55 + n.

Definition percent (b : N) : jsstring :=
  [37; hexDigit (b / 16); hexDigit (b mod 16)].

Definition utf8_bytes (cp : N) : list N :=
  if cp <? 0x80 then [cp]
  else if cp <? 0x800 then [0xC0 + cp / 0x40; 0x80 + cp mod 0x40]
  else if cp <? 0x10000 then
    [0xE0 + cp / 0x1000; 0x80 + (cp / 0x40) mod 0x40; 0x80 + cp mod 0x40]
  else
    [0xF0 + cp / 0x40000; 0x80 + (cp / 0x1000) mod 0x40;
     0x80 + (cp / 0x40) mod 0x40; 0x80 + cp mod 0x40].

Definition URIError : JsError := Error (lit "URI malformed").

Definition escaped (cp : N) (rest : JsError + jsstring) : JsError + jsstring :=
  match rest with
  | inl err => inl err
  | inr s => inr (flat_map percent (utf8_bytes cp) ++ s)
  end.

Fixpoint encodeURIComponent (s : jsstring) : JsError + jsstring :=
  match s with
  | [] => inr []
  | c :: rest =>
      if isUnreserved c then
        match encodeURIComponent rest with
        | inl err => inl err
        | inr s' => inr (c :: s')
        end
      else if (0xD800 <=? c) && (c <=? 0xDBFF) then
        match rest with
        | lo :: rest' =>
            if (0xDC00 <=? lo) && (lo <=? 0xDFFF)
            then escaped (0x10000 + (c - 0xD800) * 0x400 + (lo - 0xDC00))
                         (encodeURIComponent rest')
            else inl URIError
        | [] => inl URIError
        end
      else if (0xDC00 <=? c) && (c <=? 0xDFFF) then inl URIError
      else escaped c (encodeURIComponent rest)
  end.

(** A JSON parser that reads every body as the object [d], one that
    reads every body as [null], and one that rejects every body. *)
Definition parses_as {D : Type} (d : D) : jsstring -> JsError + option D :=
  fun _ => inr (Some d).

Definition parses_null {D : Type} : jsstring -> JsError + option D :=
  fun _ => inr None.

Definition parse_fails {D : Type} : jsstring -> JsError + option D :=
  fun _ => inl (Error (lit "Unexpected end of JSON input")).

(** The [TypeError] of reading a property of [null], in the wording of
    Chrome and Node. *)
Definition TypeError_null (key : jsstring) : JsError :=
  Error (lit "Cannot read properties of null (reading '" ++ key ++ lit "')").

(** A network that settles every request the same way. *)
Definition answers (r : Settled Response) : jsstring -> Settled Response :=
  fun _ => r.

Definition london : LocationCandidate Num :=
  {| name := lit "London"; admin1 := Some (lit "England");
     country := lit "United Kingdom";
     latitude := Int 52; longitude := Int 0;
     population := Some (Int 8961989) |}.

Definition springfield : LocationCandidate Num :=
  {| name := lit "Springfield"; admin1 := Some (lit "");
     country := lit "United States";
     latitude := Int 40; longitude := Int (-90);
     population := None |}.

Definition currentConditions : CurrentWeather Num :=
  mkCurrentWeather (Some (Int 12)) (Some (Int 9)) (Some (Int 240))
    (Some 3%Z) (Some (lit "2025-03-01T12:00")).

Definition fiveDays : list jsstring :=
  [lit "2025-03-01"; lit "2025-03-02"; lit "2025-03-03"; lit "2025-03-04";
   lit "2025-03-05"].

Definition fiveDayForecast : ForecastData Num :=
  {| current_weather := Some currentConditions;
     daily :=
       Some {| time := Some fiveDays;
               weathercode := Some [3; 61; 0; 2; 95]%Z;
               temperature_2m_max :=
                 Some [Int 13; Int 11; Int 14; Int 15; Int 12];
               temperature_2m_min :=
                 Some [Int 6; Int 5; Int 4; Int 7; Int 8] |};
     timezone := Some (lit "Europe/London") |}.

Definition noCurrentForecast : ForecastData Num :=
  {| current_weather := None; daily := None;
     timezone := Some (lit "Europe/London") |}.

(** The state once the user has typed [q] in the search box. *)
Definition typed (q : jsstring) : AppState Num :=
  {| query := q; locations := []; loadingGeo := false;
     loadingWeather := false; weather := None; error := None |}.

Definition search (parse : jsstring -> JsError + option (GeocodingData Num))
  (net : jsstring -> Settled Response) (st : AppState Num)
  : Act Num unit :=
  searchCity Num encodeURIComponent parse TypeError_null net st (Some tt).

Definition forecast (parse : jsstring -> JsError + option (ForecastData Num))
  (net : jsstring -> Settled Response) (lat lon : Num)
  (hint : option jsstring) : Act Num unit :=
  fetchWeatherByCoords Num Num_toString Num_toFixed parse TypeError_null
  net lat lon hint.

Definition select (parse : jsstring -> JsError + option (ForecastData Num))
  (net : jsstring -> Settled Response) (loc : LocationCandidate Num)
  : Act Num unit :=
  onSelectLocation Num Num_toString Num_toFixed parse TypeError_null net loc.

Definition locate (parse : jsstring -> JsError + option (ForecastData Num))
  (net : jsstring -> Settled Response)
  (geo : option (Settled (Position Num))) : Act Num unit :=
  useMyLocation Num Num_toString Num_toFixed parse TypeError_null net geo.

Definition okBody : Response := mkResponse 200 (lit "{}").

Definition serverError : Response :=
  mkResponse 500 (lit "Internal Server Error").

Definition noResults : GeocodingData Num := {| results := Some [] |}.

Definition denied : JsError := Error (lit "User denied Geolocation").

(** The runs the lemmas below are about. *)
Definition blankState : AppState Num := typed (lit "   ").

Definition blankSearch : Act Num unit :=
  search (parses_as noResults) (answers (Resolved okBody)) blankState.

Definition londonTyped : AppState Num := typed (lit "London").

Definition emptySearch : Act Num unit :=
  search (parses_as noResults) (answers (Resolved okBody)) londonTyped.

Definition offlineSearch : Act Num unit :=
  search parse_fails (answers (Rejected (Error (lit "Failed to fetch"))))
    londonTyped.

Definition missingCurrentRun : Act Num unit :=
  forecast (parses_as noCurrentForecast) (answers (Resolved okBody))
    (Int 52) (Int 0) (Some (lit "London, England")).

Definition serverErrorRun : Act Num unit :=
  forecast (parses_as fiveDayForecast) (answers (Resolved serverError))
    (Int 52) (Int 0) (Some (lit "London, England")).

Definition unnamedRun : Act Num unit :=
  forecast (parses_as fiveDayForecast) (answers (Resolved okBody))
    (Int 52) (Int 0) None.

Definition fiveDayRun : Act Num unit :=
  forecast (parses_as fiveDayForecast) (answers (Resolved okBody))
    (Int 52) (Int 0) (Some (lit "London, England")).

Definition selectLondon : Act Num unit :=
  select (parses_as fiveDayForecast) (answers (Resolved okBody)) london.

Definition deniedRun : Act Num unit :=
  locate (parses_as fiveDayForecast) (answers (Resolved okBody))
    (Some (Rejected denied)).

Definition londonResults : GeocodingData Num :=
  {| results := Some [london; springfield] |}.

Definition foundSearch : Act Num unit :=
  search (parses_as londonResults) (answers (Resolved okBody)) londonTyped.

Definition refusedSearch : Act Num unit :=
  search (parses_as londonResults) (answers (Resolved serverError))
    londonTyped.

Definition hungSearch : Act Num unit :=
  search (parses_as londonResults) (answers NeverSettles) londonTyped.

Definition unparsableRun : Act Num unit :=
  forecast parse_fails (answers (Resolved okBody))
    (Int 52) (Int 0) (Some (lit "London, England")).

Definition silentFailure : JsError := Error (lit "").

Definition offlineRun : Act Num unit :=
  forecast (parses_as fiveDayForecast) (answers (Rejected silentFailure))
    (Int 52) (Int 0) (Some (lit "London, England")).

Definition hungRun : Act Num unit :=
  forecast (parses_as fiveDayForecast) (answers NeverSettles)
    (Int 52) (Int 0) (Some (lit "London, England")).

Definition locatedRun : Act Num unit :=
  locate (parses_as fiveDayForecast) (answers (Resolved okBody))
    (Some (Resolved (Coords (Int 52) (Int 0)))).

Definition waitingRun : Act Num unit :=
  locate (parses_as fiveDayForecast) (answers (Resolved okBody))
    (Some NeverSettles).

Definition nullBody : Response := mkResponse 200 (lit "null").

Definition nullBodySearch : Act Num unit :=
  search parses_null (answers (Resolved nullBody)) londonTyped.

Definition nullBodyRun : Act Num unit :=
  forecast parses_null (answers (Resolved nullBody))
    (Int 52) (Int 0) (Some (lit "London, England")).

Definition unreachableRun : Act Num unit :=
  forecast (parses_as fiveDayForecast)
    (answers (Rejected (Error (lit "Failed to fetch"))))
    (Int 52) (Int 0) (Some (lit "London, England")).

(** A response with days to show and no [weathercode] array. *)
Definition codelessForecast : ForecastData Num :=
  {| current_weather := Some currentConditions;
     daily :=
       Some {| time := Some fiveDays;
               weathercode := None;
               temperature_2m_max :=
                 Some [Int 13; Int 11; Int 14; Int 15; Int 12];
               temperature_2m_min :=
                 Some [Int 6; Int 5; Int 4; Int 7; Int 8] |};
     timezone := Some (lit "Europe/London") |}.

Definition codelessRun : Act Num unit :=
  forecast (parses_as codelessForecast) (answers (Resolved okBody))
    (Int 52) (Int 0) (Some (lit "London, England")).

(** What is shown for a state. *)
Definition show (parse : jsstring -> JsError + option (ForecastData Num))
  (net : jsstring -> Settled Response) (st : AppState Num)
  : Rendered (View Num) :=
  render Num Num_toString Num_toFixed Num_round parse TypeError_null
  net (Int 0) st.

Definition londonItem : CandidateItem Num :=
  candidateItem Num Num_toString Num_toFixed (parses_as fiveDayForecast)
    TypeError_null (answers (Resolved okBody)) london.

(** The snapshot stored by [fiveDayRun]. *)
Definition londonWeather : Weather Num :=
  {| data := fiveDayForecast; placeName := Some (lit "London, England") |}.

Example encode_london : encodeURIComponent (lit "London") = inr (lit "London").
Proof. reflexivity. Qed.

Example encode_sao_paulo :
  encodeURIComponent (lit "São Paulo") = inr (lit "S%C3%A3o%20Paulo").
Proof. reflexivity. Qed.

Example forecastUrl_london :
  forecastUrl Num Num_toString (Int 52) (Int 0)
  = lit "https://api.open-meteo.com/v1/forecast?latitude=52&longitude=0&current_weather=true&daily=temperature_2m_max,temperature_2m_min,weathercode&timezone=auto".
Proof. reflexivity. Qed.

Example toFixed_negative : Num_toFixed (Int (-90)) 2 = lit "-90.00".
Proof. reflexivity. Qed.

(** Apply a theorem at a concrete run: each hypothesis is computed, then
    the conclusion is compared with the goal after computing both. *)
Ltac discharge :=
  vm_compute;
  first [ reflexivity | discriminate | left; reflexivity | right; reflexivity ].

Ltac at_run thm :=
  let H := fresh "H" in
  pose proof thm as H;
  repeat match type of H with
         | ?P -> _ =>
             let HP := fresh "HP" in
             assert (HP : P) by discharge; specialize (H HP)
         end;
  vm_compute in H; vm_compute; exact H.

(** *** Weather codes *)

Lemma mapWeather_known_and_unknown_witness :
  ~ In 4%Z knownCodes
  /\ mapWeather (Some 4%Z) = {| text := lit "Unknown"; icon := lit "❓" |}.
Proof.
  assert (Hout : ~ In 4%Z knownCodes).
  { intro H. repeat (destruct H as [H | H]; [discriminate H|]). exact H. }
  split; [exact Hout|].
  pose proof mapWeather_known_and_unknown as H.
  do 13 (destruct H as [_ H]). destruct H as [H _].
  exact (H 4%Z Hout).
Defined.

(** *** Search *)

Lemma searchCity_blank_query_witness :
  forallb isWhiteSpace (query blankState) = true
  /\ requests (effects blankSearch) = []
  /\ filter is_setter (effects blankSearch) = []
  /\ state_after blankState blankSearch = blankState
  /\ completion blankSearch = Returned tt.
Proof.
  split; [reflexivity|].
  exact (searchCity_blank_query_is_noop Num encodeURIComponent
           (parses_as noResults) TypeError_null
           (answers (Resolved okBody)) blankState
           (Some tt) eq_refl).
Defined.

Lemma searchCity_no_results_witness :
  results noResults = Some []
  /\ locations (state_after londonTyped emptySearch) = []
  /\ error (state_after londonTyped emptySearch)
     = Some (lit "No matching locations found.")
  /\ (forall l, In (SetLocations l) (effects emptySearch) -> l = [])
  /\ completion emptySearch = Returned tt.
Proof.
  split; [reflexivity|].
  exact (searchCity_no_results Num encodeURIComponent
           (parses_as noResults) TypeError_null
           (answers (Resolved okBody)) londonTyped
           (Some tt) (lit "London") okBody noResults
           eq_refl eq_refl eq_refl eq_refl eq_refl (or_intror eq_refl)).
Defined.

(** A 200 response whose body is [null] has no results, and the error
    shown is the [TypeError] of reading [results], not
    "No matching locations found.". *)
Lemma null_geocoding_body_shows_type_error :
  ok nullBody = true
  /\ completion nullBodySearch = Returned tt
  /\ locations (state_after londonTyped nullBodySearch) = []
  /\ error (state_after londonTyped nullBodySearch)
     = Some (lit "Cannot read properties of null (reading 'results')")
  /\ error (state_after londonTyped nullBodySearch)
     <> Some (lit "No matching locations found.").
Proof.
  vm_compute. repeat (split; [reflexivity|]). discriminate.
Qed.

(** *** Forecast *)

(** A 200 response whose body is [null] parses and has no
    [current_weather], and the error shown is the [TypeError] of reading
    it, not "Weather data not found in API response". *)
Lemma null_forecast_body_shows_type_error :
  ok nullBody = true
  /\ completion nullBodyRun = Returned tt
  /\ weather (state_after initialState nullBodyRun) = None
  /\ error (state_after initialState nullBodyRun)
     = Some (lit "Cannot read properties of null (reading 'current_weather')")
  /\ error (state_after initialState nullBodyRun)
     <> Some (lit "Weather data not found in API response").
Proof.
  vm_compute. repeat (split; [reflexivity|]). discriminate.
Qed.

Lemma fetchWeatherByCoords_missing_current_weather_witness :
  current_weather noCurrentForecast = None
  /\ error (state_after initialState missingCurrentRun)
     = Some (lit "Weather data not found in API response")
  /\ weather (state_after initialState missingCurrentRun) = None
  /\ (forall w, ~ In (SetWeather (Some w)) (effects missingCurrentRun)).
Proof.
  split; [reflexivity|].
  exact (fetchWeatherByCoords_missing_current_weather Num Num_toString
           Num_toFixed (parses_as noCurrentForecast)
           TypeError_null
           (answers (Resolved okBody)) initialState (Int 52) (Int 0)
           (Some (lit "London, England")) okBody noCurrentForecast
           eq_refl eq_refl eq_refl eq_refl).
Defined.

Example status_500_message :
  lit "Weather request failed with status " ++ of_N (status serverError)
  = lit "Weather request failed with status 500".
Proof. reflexivity. Qed.

Lemma fetchWeatherByCoords_bad_status_witness :
  (status serverError < 200 \/ 299 < status serverError)
  /\ error (state_after initialState serverErrorRun)
     = Some (lit "Weather request failed with status "
             ++ of_N (status serverError))
  /\ weather (state_after initialState serverErrorRun) = None
  /\ (forall w, ~ In (SetWeather (Some w)) (effects serverErrorRun)).
Proof.
  assert (Hstatus : status serverError < 200 \/ 299 < status serverError)
    by (right; reflexivity).
  split; [exact Hstatus|].
  exact (fetchWeatherByCoords_bad_status Num Num_toString Num_toFixed
           (parses_as fiveDayForecast) TypeError_null
           (answers (Resolved serverError))
           initialState (Int 52) (Int 0) (Some (lit "London, England"))
           serverError eq_refl Hstatus).
Defined.

Lemma fetchWeatherByCoords_placeName_witness :
  exists w,
    weather (state_after initialState unnamedRun) = Some w
    /\ data w = fiveDayForecast
    /\ placeName w = Some (lit "Europe/London").
Proof.
  exact (fetchWeatherByCoords_placeName Num Num_toString Num_toFixed
           (parses_as fiveDayForecast) TypeError_null
           (answers (Resolved okBody))
           initialState (Int 52) (Int 0) None okBody fiveDayForecast
           currentConditions eq_refl eq_refl eq_refl eq_refl).
Defined.

(** With five days in the response, the fetch succeeds and the snapshot
    stored in state holds five days, not three. *)
Lemma stored_daily_keeps_all_five_days :
  completion fiveDayRun = Returned tt
  /\ error (state_after initialState fiveDayRun) = None
  /\ exists w,
       weather (state_after initialState fiveDayRun) = Some w
       /\ storedDays w = fiveDays
       /\ List.length (storedDays w) = 5%nat
       /\ List.length (storedDays w) <> 3%nat.
Proof.
  split; [reflexivity|]. split; [reflexivity|].
  eexists. split; [reflexivity|]. split; [reflexivity|].
  split; [reflexivity | discriminate].
Qed.

(** With days to show and no [weathercode] array, rendering the stored
    snapshot throws. *)
Example codeless_forecast_crashes :
  renderedForecast Num Num_round (state_after initialState codelessRun)
  = Crashed.
Proof. vm_compute. reflexivity. Qed.

Lemma fetchWeatherByCoords_daily_truncated_at_render_witness :
  (3 < List.length fiveDays)%nat
  /\ exists w rows,
       weather (state_after initialState fiveDayRun) = Some w
       /\ storedDays w = fiveDays
       /\ renderedForecast Num Num_round (state_after initialState fiveDayRun)
          = Shown (Some rows)
       /\ List.length rows = 3%nat
       /\ map row_day rows = firstn 3 fiveDays.
Proof.
  assert (Hlen : (3 < List.length fiveDays)%nat) by (cbn; lia).
  split; [exact Hlen|].
  exact (fetchWeatherByCoords_daily_truncated_at_render Num Num_toString
           Num_toFixed Num_round (parses_as fiveDayForecast)
           TypeError_null (answers (Resolved okBody)) initialState
           (Int 52) (Int 0) (Some (lit "London, England")) okBody
           fiveDayForecast currentConditions _ fiveDays _ _ _
           eq_refl eq_refl eq_refl eq_refl eq_refl eq_refl Hlen
           eq_refl eq_refl eq_refl).
Defined.

(** *** Selection *)

(** A candidate whose [admin1] is the empty string gets the bare name as
    its label, not the name followed by ", ". *)
Lemma label_of_empty_admin1_is_bare_name :
  admin1 springfield = Some (lit "")
  /\ locationLabel springfield = lit "Springfield"
  /\ locationLabel springfield <> name springfield ++ lit ", " ++ lit "".
Proof.
  split; [reflexivity|]. split; [reflexivity|].
  vm_compute. discriminate.
Qed.

Lemma onSelectLocation_fetches_candidate_witness :
  locationLabel london = lit "London, England"
  /\ requests (effects selectLondon)
     = [forecastUrl Num Num_toString (Int 52) (Int 0)]
  /\ query (state_after londonTyped selectLondon) = lit "London, England"
  /\ locations (state_after londonTyped selectLondon) = []
  /\ exists w,
       weather (state_after londonTyped selectLondon) = Some w
       /\ placeName w = Some (locationLabel london).
Proof.
  destruct (onSelectLocation_fetches_candidate Num Num_toString Num_toFixed
              (parses_as fiveDayForecast) TypeError_null
              (answers (Resolved okBody))
              londonTyped london)
    as (Hlabel & _ & _ & Hreq & Hquery & Hsuccess).
  split; [exact (Hlabel (lit "England") eq_refl ltac:(discriminate))|].
  split; [exact Hreq|]. split; [exact Hquery|].
  exact (Hsuccess okBody fiveDayForecast currentConditions
           eq_refl eq_refl eq_refl eq_refl).
Defined.

(** *** Device location *)

Lemma useMyLocation_failures_witness :
  loadingWeather (state_after initialState deniedRun) = false
  /\ error (state_after initialState deniedRun)
     = Some (lit "Could not get location: " ++ message denied).
Proof.
  exact (proj1 (useMyLocation_failures Num Num_toString Num_toFixed
                  (parses_as fiveDayForecast) TypeError_null
                  (answers (Resolved okBody))
                  (Some (Rejected denied)) initialState)
           denied eq_refl).
Defined.

(** *** Loading flags *)

Lemma loading_flags_cleared_on_resolution_witness :
  truthy (trim (query londonTyped)) = true
  /\ (completion offlineSearch = Returned tt
      /\ loadingGeo (state_after londonTyped offlineSearch) = false)
  /\ (completion unreachableRun = Returned tt
      /\ loadingWeather (state_after initialState unreachableRun) = false).
Proof.
  destruct (loading_flags_cleared_on_resolution Num Num_toString
              Num_toFixed encodeURIComponent parse_fails
              (parses_as fiveDayForecast) TypeError_null
              (answers (Rejected (Error (lit "Failed to fetch"))))
              londonTyped (Some tt) (Int 52) (Int 0)
              (Some (lit "London, England")))
    as [Hsearch _].
  destruct (loading_flags_cleared_on_resolution Num Num_toString
              Num_toFixed encodeURIComponent parse_fails
              (parses_as fiveDayForecast) TypeError_null
              (answers (Rejected (Error (lit "Failed to fetch"))))
              initialState (Some tt) (Int 52) (Int 0)
              (Some (lit "London, England")))
    as [_ Hfetch].
  split; [reflexivity|]. split.
  - apply Hsearch; [reflexivity | intros encoded _; discriminate].
  - apply Hfetch. discriminate.
Defined.

(** *** Further runs *)

Example london_item_texts :
  item_title londonItem = lit "London, England"
  /\ item_place londonItem = lit "United Kingdom — 52.00, 0.00"
  /\ item_population londonItem = lit "Pop: 8961989"
  /\ item_key londonItem = lit "52-0".
Proof. vm_compute. repeat split. Qed.

Example london_rows :
  forecastRows Num Num_round londonWeather
  = Shown
      [ {| row_day := lit "2025-03-01"; row_condition := lit "Overcast";
           row_max := Int 13; row_min := Int 6 |};
        {| row_day := lit "2025-03-02"; row_condition := lit "Slight rain";
           row_max := Int 11; row_min := Int 5 |};
        {| row_day := lit "2025-03-03"; row_condition := lit "Clear sky";
           row_max := Int 14; row_min := Int 4 |} ].
Proof. vm_compute. reflexivity. Qed.

Lemma searchCity_stores_results_witness :
  state_after londonTyped foundSearch
  = {| query := lit "London";
       locations := [london; springfield];
       loadingGeo := false;
       loadingWeather := false;
       weather := None;
       error := None |}
  /\ completion foundSearch = Returned tt
  /\ requests (effects foundSearch) = [geocodingUrl (lit "London")].
Proof.
  at_run (searchCity_stores_results Num encodeURIComponent
            (parses_as londonResults) TypeError_null
            (answers (Resolved okBody)) londonTyped
            (Some tt) (lit "London") okBody londonResults london
            [springfield]).
Defined.

Lemma searchCity_bad_status_witness :
  (status serverError < 200 \/ 299 < status serverError)
  /\ state_after londonTyped refusedSearch
     = {| query := lit "London";
          locations := [];
          loadingGeo := false;
          loadingWeather := false;
          weather := None;
          error := Some (lit "Geocoding failed") |}.
Proof.
  split; [right; reflexivity|].
  at_run (searchCity_bad_status Num encodeURIComponent
            (parses_as londonResults) TypeError_null
            (answers (Resolved serverError))
            londonTyped (Some tt) (lit "London") serverError).
Defined.

Lemma searchCity_reports_exception_witness :
  state_after londonTyped offlineSearch
  = {| query := lit "London";
       locations := [];
       loadingGeo := false;
       loadingWeather := false;
       weather := None;
       error := Some (lit "Failed to fetch") |}.
Proof.
  assert (Hq : truthy (trim (query londonTyped)) = true) by discharge.
  at_run (searchCity_reports_exception Num encodeURIComponent parse_fails
            TypeError_null
            (answers (Rejected (Error (lit "Failed to fetch")))) londonTyped
            (Some tt) (Error (lit "Failed to fetch")) Hq
            (or_intror
               (ex_intro _ (lit "London")
                  (conj eq_refl (or_introl eq_refl))))).
Defined.


Lemma searchCity_pending_witness :
  completion hungSearch = Suspended
  /\ state_after londonTyped hungSearch
     = {| query := lit "London";
          locations := [];
          loadingGeo := true;
          loadingWeather := false;
          weather := None;
          error := None |}
  /\ exists v,
       show (parses_as fiveDayForecast) (answers NeverSettles)
         (state_after londonTyped hungSearch) = Shown v
       /\ view_lookingUp v = true
       /\ view_candidates v = None
       /\ view_card v = None
       /\ view_error v = None.
Proof.
  at_run (searchCity_pending Num Num_toString Num_toFixed Num_round
            encodeURIComponent (parses_as londonResults)
            (parses_as fiveDayForecast) TypeError_null
            (answers NeverSettles) (Int 0)
            londonTyped (Some tt) (lit "London")).
Defined.

Lemma fetchWeatherByCoords_snapshot_or_error_witness :
  loadingWeather (state_after initialState serverErrorRun) = false
  /\ locations (state_after initialState serverErrorRun) = []
  /\ ((exists w,
         weather (state_after initialState serverErrorRun) = Some w
         /\ error (state_after initialState serverErrorRun) = None)
      \/ (weather (state_after initialState serverErrorRun) = None
          /\ exists m,
               error (state_after initialState serverErrorRun) = Some m
               /\ m <> [])).
Proof.
  at_run (fetchWeatherByCoords_snapshot_or_error Num Num_toString
            Num_toFixed (parses_as fiveDayForecast)
            TypeError_null
            (answers (Resolved serverError)) initialState (Int 52) (Int 0)
            (Some (lit "London, England"))).
Defined.

Lemma fetchWeatherByCoords_unparsable_body_witness :
  error (state_after initialState unparsableRun)
    = Some (lit "Unexpected response format from API")
  /\ weather (state_after initialState unparsableRun) = None
  /\ In (ConsoleError
           (lit "Failed to parse weather JSON. Raw response:")
           (LogString (body okBody)))
        (effects unparsableRun).
Proof.
  at_run (fetchWeatherByCoords_unparsable_body Num Num_toString Num_toFixed
            parse_fails TypeError_null (answers (Resolved okBody)) initialState
            (Int 52) (Int 0) (Some (lit "London, England")) okBody
            (Error (lit "Unexpected end of JSON input"))).
Defined.

Lemma fetchWeatherByCoords_rejected_witness :
  error (state_after initialState offlineRun)
    = Some (lit "Failed to fetch weather.")
  /\ weather (state_after initialState offlineRun) = None
  /\ loadingWeather (state_after initialState offlineRun) = false.
Proof.
  at_run (fetchWeatherByCoords_rejected Num Num_toString Num_toFixed
            (parses_as fiveDayForecast) TypeError_null
            (answers (Rejected silentFailure))
            initialState (Int 52) (Int 0) (Some (lit "London, England"))
            silentFailure).
Defined.

Lemma fetchWeatherByCoords_overwrites_state_witness :
  state_after (state_after londonTyped foundSearch) fiveDayRun
  = state_after initialState fiveDayRun.
Proof.
  at_run (proj2
            (fetchWeatherByCoords_overwrites_state Num Num_toString
               Num_toFixed (parses_as fiveDayForecast)
               TypeError_null (answers (Resolved okBody))
               (state_after londonTyped foundSearch) initialState
               (Int 52) (Int 0) (Some (lit "London, England")))).
Defined.

Lemma fetchWeatherByCoords_pending_witness :
  completion hungRun = Suspended
  /\ loadingWeather (state_after initialState hungRun) = true
  /\ weather (state_after initialState hungRun) = None
  /\ error (state_after initialState hungRun) = None
  /\ exists v,
       show (parses_as fiveDayForecast) (answers NeverSettles)
         (state_after initialState hungRun) = Shown v
       /\ view_loadingWeather v = true
       /\ view_card v = None
       /\ view_error v = None.
Proof.
  at_run (fetchWeatherByCoords_pending Num Num_toString Num_toFixed Num_round
            (parses_as fiveDayForecast) TypeError_null
            (answers NeverSettles) (Int 0)
            initialState (Int 52) (Int 0) (Some (lit "London, England"))).
Defined.

Lemma useMyLocation_fetches_position_witness :
  state_after londonTyped locatedRun
  = state_after londonTyped
      (forecast (parses_as fiveDayForecast) (answers (Resolved okBody))
         (Int 52) (Int 0) (Some (lit "Your location")))
  /\ completion locatedRun
     = completion
         (forecast (parses_as fiveDayForecast) (answers (Resolved okBody))
            (Int 52) (Int 0) (Some (lit "Your location")))
  /\ requests (effects locatedRun)
     = [forecastUrl Num Num_toString (Int 52) (Int 0)]
  /\ query (state_after londonTyped locatedRun) = lit "Your location".
Proof.
  at_run (useMyLocation_fetches_position Num Num_toString Num_toFixed
            (parses_as fiveDayForecast) TypeError_null
            (answers (Resolved okBody))
            (Some (Resolved (Coords (Int 52) (Int 0)))) londonTyped
            (Int 52) (Int 0)).
Defined.

Lemma useMyLocation_without_callback_witness :
  state_after (state_after initialState fiveDayRun) waitingRun
  = {| query := lit "London, England";
       locations := [];
       loadingGeo := false;
       loadingWeather := true;
       weather := Some londonWeather;
       error := None |}
  /\ completion waitingRun = Returned tt
  /\ requests (effects waitingRun) = []
  /\ exists v,
       show (parses_as fiveDayForecast) (answers (Resolved okBody))
         (state_after (state_after initialState fiveDayRun) waitingRun)
       = Shown v
       /\ view_card v = None
       /\ view_loadingWeather v = true.
Proof.
  at_run (useMyLocation_without_callback Num Num_toString Num_toFixed
            Num_round (parses_as fiveDayForecast) TypeError_null
            (answers (Resolved okBody))
            (Some NeverSettles) (Int 0)
            (state_after initialState fiveDayRun)).
Defined.

Lemma handlers_never_set_empty_error_witness :
  In (SetError (Some (lit "No matching locations found.")))
     (effects emptySearch)
  /\ lit "No matching locations found." <> [].
Proof.
  assert (Hin : In (SetError (Some (lit "No matching locations found.")))
                  (effects emptySearch))
    by (vm_compute; repeat first [left; reflexivity | right]).
  split; [exact Hin|].
  exact (handlers_never_set_empty_error Num Num_toString Num_toFixed
           encodeURIComponent (parses_as noResults)
           (parses_as fiveDayForecast) TypeError_null
           (answers (Resolved okBody)) None
           londonTyped (Some tt) (Int 52) (Int 0) None london
           (lit "No matching locations found.") (or_introl Hin)).
Defined.

Lemma forecastRows_zip_by_index_witness :
  exists rows row,
    forecastRows Num Num_round londonWeather = Shown rows
    /\ nth_error rows 1 = Some row
    /\ List.length rows = 3%nat
    /\ (1 < 3)%nat
    /\ nth_error (storedDays londonWeather) 1 = Some (row_day row)
    /\ row_condition row = lit "Slight rain".
Proof.
  assert (Hrows : exists rows,
             forecastRows Num Num_round londonWeather = Shown rows
             /\ exists row, nth_error rows 1 = Some row
                            /\ row_condition row = lit "Slight rain").
  { vm_compute. eexists. split; [reflexivity|].
    eexists. split; reflexivity. }
  destruct Hrows as (rows & Hrows & row & Hrow & Hcondition).
  destruct (proj2 (forecastRows_zip_by_index Num Num_round londonWeather)
              rows Hrows) as (Hlen & Hzip).
  destruct (Hzip 1%nat row Hrow) as (Hlt & Hday & _).
  exists rows, row.
  split; [exact Hrows|]. split; [exact Hrow|].
  split; [exact Hlen|]. split; [exact Hlt|].
  split; [exact Hday | exact Hcondition].
Defined.

Lemma render_after_fetch_witness :
  exists w,
    weather (state_after initialState codelessRun) = Some w
    /\ error (state_after initialState codelessRun) = None
    /\ rowsRenderable (daily (data w)) = false
    /\ show (parses_as codelessForecast) (answers (Resolved okBody))
         (state_after initialState codelessRun) = Crashed.
Proof.
  assert (Hsettles : answers (Resolved okBody)
                       (forecastUrl Num Num_toString (Int 52) (Int 0))
                     <> NeverSettles) by discriminate.
  destruct (render_after_fetch Num Num_toString Num_toFixed Num_round
              (parses_as codelessForecast) TypeError_null
              (answers (Resolved okBody)) (Int 0)
              initialState (Int 52) (Int 0) (Some (lit "London, England"))
              Hsettles)
    as [(m & v & Herror & _) | (w & Hw & Herror & Hview)].
  - vm_compute in Herror. discriminate Herror.
  - exists w. split; [exact Hw|]. split; [exact Herror|].
    assert (Hrows : rowsRenderable (daily (data w)) = false).
    { vm_compute in Hw. injection Hw as <-. vm_compute. reflexivity. }
    split; [exact Hrows|].
    rewrite Hrows in Hview. exact Hview.
Defined.


Lemma clicked_candidate_heads_card_witness :
  rowsRenderable (daily fiveDayForecast) = true
  /\ exists v card,
       show (parses_as fiveDayForecast) (answers (Resolved okBody))
         (state_after londonTyped (item_onClick londonItem)) = Shown v
       /\ view_query v = item_title londonItem
       /\ view_candidates v = None
       /\ view_error v = None
       /\ view_loadingWeather v = false
       /\ view_card v = Some card
       /\ card_place card = item_title londonItem.
Proof.
  split; [reflexivity|].
  at_run (clicked_candidate_heads_card Num Num_toString Num_toFixed
            Num_round (parses_as fiveDayForecast) TypeError_null
            (answers (Resolved okBody)) (Int 0) londonTyped london okBody
            fiveDayForecast currentConditions).
Defined.

Lemma card_after_successful_fetch_witness :
  exists v card,
    show (parses_as fiveDayForecast) (answers (Resolved okBody))
      (state_after initialState unnamedRun) = Shown v
    /\ view_card v = Some card
    /\ card_place card = lit "Europe/London"
    /\ card_icon card = lit "☁️"
    /\ detail_condition card = lit "Overcast"
    /\ card_asOf card = lit "As of: 2025-03-01T12:00"
    /\ (List.length (card_rows card) <= 3)%nat.
Proof.
  at_run (card_after_successful_fetch Num Num_toString Num_toFixed Num_round
            (parses_as fiveDayForecast) TypeError_null
            (answers (Resolved okBody)) (Int 0)
            initialState (Int 52) (Int 0) None okBody fiveDayForecast
            currentConditions).
Defined.

Lemma search_then_select_witness :
  state_after (state_after londonTyped foundSearch) selectLondon
  = {| query := lit "London, England";
       locations := [];
       loadingGeo := false;
       loadingWeather := false;
       weather := Some londonWeather;
       error := None |}.
Proof.
  at_run (search_then_select Num Num_toString Num_toFixed encodeURIComponent
            (parses_as londonResults) (parses_as fiveDayForecast)
            TypeError_null
            (answers (Resolved okBody)) londonTyped (Some tt) (lit "London")
            okBody londonResults london [springfield] london okBody
            fiveDayForecast currentConditions).
Defined.

End Fixture.
